(** * Galaxy particle generator ([src/App.vue], [generateGalaxy])

    A shallow embedding of the script block of [App.vue]: the parameter
    object, the module-level variables [geometry], [material], [points] and
    [scene], and the function [generateGalaxy] which disposes the previous
    particle cloud, fills two [Float32Array]s and publishes a new
    [THREE.Points] object.

    JavaScript numbers are kept abstract behind the interface [JSNumber];
    the structural results hold for every implementation of that interface,
    the arithmetical ones are proved for the exact instance [xreal]. *)

From Stdlib Require Import ZArith Reals Lra Lia.
From stdpp Require Import base numbers option list strings.

Set Default Proof Using "Type".

(** ** Numbers *)

(** The operations of JavaScript numbers that [generateGalaxy] uses.
    [fround] is the rounding applied by a store into a [Float32Array];
    [nNaN] is the result of [i % 0]. *)
Class JSNumber (num : Type) := {
  nadd : num -> num -> num;
  nsub : num -> num -> num;
  nmul : num -> num -> num;
  ndiv : num -> num -> num;
  ncos : num -> num;
  nsin : num -> num;
  nPI : num;
  nNaN : num;
  nhalf : num;
  of_int : Z -> num;
  fround : num -> num
}.

Declare Scope num_scope.
Delimit Scope num_scope with num.
Infix "+" := nadd : num_scope.
Infix "-" := nsub : num_scope.
Infix "*" := nmul : num_scope.
Infix "/" := ndiv : num_scope.

(** [a % b] on integer-valued operands with [0 <= a]: the remainder takes
    the sign of the dividend, and a zero divisor gives [NaN]. *)
Definition js_rem {num : Type} `{!JSNumber num} (a b : Z) : num :=
  if (b =? 0)%Z then nNaN else of_int (Z.rem a b).

(** ** Data *)

(** [THREE.Color]: three channels. *)
Record Color (num : Type) := mkColor { r : num; g : num; b : num }.
Arguments mkColor {num} _ _ _.
Arguments r {num} _.
Arguments g {num} _.
Arguments b {num} _.

(** The object [parameters] (lines 14-24). *)
Record Parameters (num : Type) := mkParameters {
  count : Z;
  size : num;
  radius : num;
  branches : Z;
  spin : num;
  randomness : num;
  randomnessPower : num;
  insideColor : string;
  outsideColor : string
}.
Arguments mkParameters {num} _ _ _ _ _ _ _ _ _.
Arguments count {num} _.
Arguments size {num} _.
Arguments radius {num} _.
Arguments branches {num} _.
Arguments spin {num} _.
Arguments randomness {num} _.
Arguments randomnessPower {num} _.
Arguments insideColor {num} _.
Arguments outsideColor {num} _.

(** The parameter object after the assignment
    [parameters.randomnessPower = rp]. *)
Definition with_randomnessPower {num : Type} (rp : num) (p : Parameters num)
    : Parameters num :=
  mkParameters (count p) (size p) (radius p) (branches p) (spin p)
               (randomness p) rp (insideColor p) (outsideColor p).

(** The two typed arrays built by one run of the loop. *)
Record Buffers (num : Type) := mkBuffers {
  positions : list num;
  colors : list num
}.
Arguments mkBuffers {num} _ _.
Arguments positions {num} _.
Arguments colors {num} _.

(** Objects of the rendering library carry an identity (their allocation
    number); [g_position] and [g_color] are the attributes set by
    [setAttribute]. *)
Record BufferGeometry (num : Type) := mkGeometry {
  g_id : nat;
  g_position : option (list num);
  g_color : option (list num)
}.
Arguments mkGeometry {num} _ _ _.
Arguments g_id {num} _.
Arguments g_position {num} _.
Arguments g_color {num} _.

(** [THREE.PointsMaterial]: only [size] varies from one call to the next;
    the flags of lines 83-86 are the same constants in every material. *)
Record PointsMaterial (num : Type) := mkMaterial {
  m_id : nat;
  m_size : num
}.
Arguments mkMaterial {num} _ _.
Arguments m_id {num} _.
Arguments m_size {num} _.

Record Points (num : Type) := mkPoints {
  o_id : nat;
  o_geometry : BufferGeometry num;
  o_material : PointsMaterial num
}.
Arguments mkPoints {num} _ _ _.
Arguments o_id {num} _.
Arguments o_geometry {num} _.
Arguments o_material {num} _.

(** Calls into the rendering library, in the order they are made. *)
Inductive event :=
  | EvDispose (id : nat)
  | EvRemove (id : nat)
  | EvAdd (id : nat).

(** The module-level variables (lines 26-29) together with the state of
    the collaborators they point into: [scene] holds the children of the
    scene ([None] when the variable is [null]), [disposed] the resources on
    which [dispose()] was called, [next_id] the allocation counter, [draws]
    the number of values [Math.random] has handed out so far. *)
Record World (num : Type) := mkWorld {
  geometry : option (BufferGeometry num);
  material : option (PointsMaterial num);
  points : option (Points num);
  scene : option (list (Points num));
  disposed : list nat;
  next_id : nat;
  draws : nat;
  trace : list event
}.
Arguments mkWorld {num} _ _ _ _ _ _ _ _.
Arguments geometry {num} _.
Arguments material {num} _.
Arguments points {num} _.
Arguments scene {num} _.
Arguments disposed {num} _.
Arguments next_id {num} _.
Arguments draws {num} _.
Arguments trace {num} _.

(** How a call ends: by returning, or by an exception. *)
Inductive completion := Normal | ThrowRangeError.

(** ** The generator (lines 45-75) *)

Section Generator.
Context {num : Type} `{!JSNumber num}.

(** [rng k] is the [k]-th value handed out by [Math.random]; [newColor]
    is the constructor [new THREE.Color(string)]. *)
Variable rng : nat -> num.
Variable newColor : string -> Color num.

Local Open Scope num_scope.

(** [Math.random()]: the next value, and the advanced cursor. *)
Definition Math_random (d : nat) : num * nat := (rng d, S d).

(** [new Float32Array(n)]: [n] zeros, a [RangeError] for a negative
    length. The engine's upper limit on the length is not represented. *)
Definition Float32Array (n : Z) : option (list num) :=
  if (n <? 0)%Z then None else Some (replicate (Z.to_nat n) (of_int 0)).

(** [Color.lerp(color, alpha)]. *)
Definition lerp (c1 c2 : Color num) (alpha : num) : Color num :=
  mkColor (r c1 + (r c2 - r c1) * alpha)
          (g c1 + (g c2 - g c1) * alpha)
          (b c1 + (b c2 - b c1) * alpha).

(** Line 56. *)
Definition spinAngle (p : Parameters num) (radius_i : num) : num :=
  radius_i * spin p.

(** Lines 57-58. *)
Definition branchAngle (p : Parameters num) (i : nat) : num :=
  (js_rem (Z.of_nat i) (branches p) / of_int (branches p)) * nPI * of_int 2.

(** Lines 60-62: the three jitters are the same expression of one fresh
    draw [u] each. *)
Definition jitter (p : Parameters num) (u radius_i : num) : num :=
  (u - nhalf) * randomness p * radius_i.

(** One iteration of the loop (lines 53-74). *)
Definition body (p : Parameters num) (colorInside colorOutside : Color num)
    (i : nat) (st : Buffers num * nat) : Buffers num * nat :=
  let '(buf, d) := st in
  let i3 := (i * 3)%nat in
  let '(u, d) := Math_random d in
  let radius_i := u * radius p in
  let sA := spinAngle p radius_i in
  let bA := branchAngle p i in
  let '(ux, d) := Math_random d in
  let randomX := jitter p ux radius_i in
  let '(uy, d) := Math_random d in
  let randomY := jitter p uy radius_i in
  let '(uz, d) := Math_random d in
  let randomZ := jitter p uz radius_i in
  let ps := positions buf in
  let ps := <[i3 := fround (ncos (bA + sA) * radius_i + randomX)]> ps in
  let ps := <[(i3 + 1)%nat := fround randomY]> ps in
  let ps := <[(i3 + 2)%nat := fround (nsin (bA + sA) * radius_i + randomZ)]> ps in
  let mixedColor := lerp colorInside colorOutside (radius_i / radius p) in
  let cs := colors buf in
  let cs := <[i3 := fround (r mixedColor)]> cs in
  let cs := <[(i3 + 1)%nat := fround (g mixedColor)]> cs in
  let cs := <[(i3 + 2)%nat := fround (b mixedColor)]> cs in
  (mkBuffers ps cs, d).

(** [for (let i = i0; i < i0 + n; i++) body]. *)
Fixpoint for_loop (p : Parameters num) (cI cO : Color num)
    (n i : nat) (st : Buffers num * nat) : Buffers num * nat :=
  match n with
  | O => st
  | S n' => for_loop p cI cO n' (S i) (body p cI cO i st)
  end.

(** Lines 45-75: allocate both arrays, run the loop. [None] stands for
    the [RangeError] of an allocation. *)
Definition generate (p : Parameters num) (d : nat)
    : option (Buffers num * nat) :=
  match Float32Array (count p * 3) with
  | None => None
  | Some ps =>
    match Float32Array (count p * 3) with
    | None => None
    | Some cs =>
      let colorInside := newColor (insideColor p) in
      let colorOutside := newColor (outsideColor p) in
      Some (for_loop p colorInside colorOutside
              (Z.to_nat (count p)) 0 (mkBuffers ps cs, d))
    end
  end.

End Generator.

(** ** The scene binder (lines 32-92) *)

Section Binder.
Context {num : Type} `{!JSNumber num}.
Variable rng : nat -> num.
Variable newColor : string -> Color num.

(** [resource.dispose()]. *)
Definition dispose (id : nat) (w : World num) : World num :=
  mkWorld (geometry w) (material w) (points w) (scene w)
          (disposed w ++ [id]) (next_id w) (draws w)
          (trace w ++ [EvDispose id]).

(** [Object3D.remove]: the child with that identity is spliced out of
    [children], when there is one. *)
Fixpoint remove_child (o : nat) (cs : list (Points num)) : list (Points num) :=
  match cs with
  | [] => []
  | c :: cs' => if decide (o_id c = o) then cs' else c :: remove_child o cs'
  end.

(** [scene.remove(pts)]. *)
Definition scene_remove (pts : Points num) (w : World num) : World num :=
  mkWorld (geometry w) (material w) (points w)
          (remove_child (o_id pts) <$> scene w)
          (disposed w) (next_id w) (draws w)
          (trace w ++ [EvRemove (o_id pts)]).

(** [scene.add(pts)] for an object that has no parent yet. *)
Definition scene_add (pts : Points num) (w : World num) : World num :=
  mkWorld (geometry w) (material w) (points w)
          ((λ cs, cs ++ [pts]) <$> scene w)
          (disposed w) (next_id w) (draws w)
          (trace w ++ [EvAdd (o_id pts)]).

(** Lines 36-40. *)
Definition dispose_previous (w : World num) : World num :=
  match points w with
  | Some pts =>
    let w := match geometry w with Some ge => dispose (g_id ge) w | None => w end in
    let w := match material w with Some ma => dispose (m_id ma) w | None => w end in
    scene_remove pts w
  | None => w
  end.

(** Line 43: [geometry = new THREE.BufferGeometry()]. *)
Definition new_geometry (w : World num) : World num :=
  mkWorld (Some (mkGeometry (next_id w) None None)) (material w) (points w)
          (scene w) (disposed w) (S (next_id w)) (draws w) (trace w).

(** Lines 77-91: both attributes are set on the geometry [gid] made at
    line 43, the material and the points object are allocated, the three
    variables are assigned and the object is added to the scene. *)
Definition publish (p : Parameters num) (gid : nat) (buf : Buffers num)
    (d : nat) (w : World num) : World num :=
  let ge := mkGeometry gid (Some (positions buf)) (Some (colors buf)) in
  let ma := mkMaterial (next_id w) (size p) in
  let pts := mkPoints (S (next_id w)) ge ma in
  scene_add pts
    (mkWorld (Some ge) (Some ma) (Some pts) (scene w) (disposed w)
             (S (S (next_id w))) d (trace w)).

(** The function [generateGalaxy] (lines 32-92). *)
Definition generateGalaxy (p : Parameters num) (w : World num)
    : completion * World num :=
  match scene w with
  | None => (Normal, w)
  | Some _ =>
    let w := dispose_previous w in
    let gid := next_id w in
    let w := new_geometry w in
    match generate rng newColor p (draws w) with
    | None => (ThrowRangeError, w)
    | Some (buf, d) => (Normal, publish p gid buf d w)
    end
  end.

(** The state in which [onMounted] makes the first call (line 128): a
    fresh empty scene, nothing else allocated. *)
Definition mounted : World num :=
  mkWorld None None None (Some []) [] 0 0 [].

(** The previous renderable as [dispose_previous] leaves the scene:
    spliced out when there is one. *)
Definition without_previous (w : World num) (cs : list (Points num))
    : list (Points num) :=
  match points w with
  | Some old => remove_child (o_id old) cs
  | None => cs
  end.

(** The resources released by [dispose_previous], in order. *)
Definition released (w : World num) : list nat :=
  match points w with
  | Some _ => option_list (g_id <$> geometry w) ++ option_list (m_id <$> material w)
  | None => []
  end.

(** The states the binder keeps itself in: the scene holds the active
    renderable and nothing else; the variables [geometry] and [material]
    are the resources of the active renderable, which are live;
    the identities in use are below [next_id]. *)
Definition wf (w : World num) : Prop :=
  (forall cs, scene w = Some cs -> cs = option_list (points w)) /\
  (forall pts, points w = Some pts ->
     geometry w = Some (o_geometry pts) /\
     material w = Some (o_material pts) /\
     (g_id (o_geometry pts) ∉ disposed w) /\
     (m_id (o_material pts) ∉ disposed w)) /\
  (forall id, id ∈ disposed w -> (id < next_id w)%nat) /\
  (forall ge, geometry w = Some ge -> (g_id ge < next_id w)%nat) /\
  (forall ma, material w = Some ma -> (m_id ma < next_id w)%nat).

End Binder.

(** ** Exact arithmetic *)

(** Real numbers extended with one non-finite value: the instance of
    [JSNumber] in which every operation is exact and a store into a
    [Float32Array] does not round. Division by zero leaves the finite
    numbers. *)
Inductive xreal := XNaN | XFin (x : R).

Definition xlift1 (f : R -> R) (a : xreal) : xreal :=
  match a with XFin x => XFin (f x) | XNaN => XNaN end.

Definition xlift2 (f : R -> R -> R) (a c : xreal) : xreal :=
  match a, c with XFin x, XFin y => XFin (f x y) | _, _ => XNaN end.

Definition xdiv (a c : xreal) : xreal :=
  match a, c with
  | XFin x, XFin y => if Req_dec_T y 0 then XNaN else XFin (x / y)
  | _, _ => XNaN
  end.

#[export] Instance xreal_number : JSNumber xreal := {
  nadd := xlift2 Rplus;
  nsub := xlift2 Rminus;
  nmul := xlift2 Rmult;
  ndiv := xdiv;
  ncos := xlift1 cos;
  nsin := xlift1 sin;
  nPI := XFin PI;
  nNaN := XNaN;
  nhalf := XFin (1 / 2);
  of_int := λ z, XFin (IZR z);
  fround := λ a, a
}.

(** ** What one iteration stores *)

Section Slots.
Context {num : Type} `{!JSNumber num}.
Variable rng : nat -> num.
Variable newColor : string -> Color num.

Local Open Scope num_scope.

(** The value of the local [radius] in iteration [i] of a run that
    starts with [d] draws already consumed: iteration [i] consumes the
    draws [d + 4 i .. d + 4 i + 3]. *)
Definition radius_at (p : Parameters num) (d i : nat) : num :=
  rng (d + 4 * i) * radius p.

(** The three jitters of iteration [i]. *)
Definition jitter_at (p : Parameters num) (d i axis : nat) : num :=
  jitter p (rng (d + 4 * i + S axis)) (radius_at p d i).

(** The value stored at [positions[3 i + axis]]. *)
Definition position_at (p : Parameters num) (d i axis : nat) : num :=
  let radius_i := radius_at p d i in
  let a := branchAngle p i + spinAngle p radius_i in
  match axis with
  | 0%nat => fround (ncos a * radius_i + jitter_at p d i 0)
  | 1%nat => fround (jitter_at p d i 1)
  | _ => fround (nsin a * radius_i + jitter_at p d i 2)
  end.

(** The value stored at [colors[3 i + channel]]. *)
Definition color_at (p : Parameters num) (d i channel : nat) : num :=
  let mixedColor :=
    lerp (newColor (insideColor p)) (newColor (outsideColor p))
         (radius_at p d i / radius p) in
  match channel with
  | 0%nat => fround (r mixedColor)
  | 1%nat => fround (g mixedColor)
  | _ => fround (b mixedColor)
  end.

End Slots.

(** ** Concrete inputs *)

(** The parameter object as the program starts with it (lines 14-24). *)
Definition parameters : Parameters xreal :=
  mkParameters 100000 (XFin (1 / 1000)) (XFin 10) 3 (XFin 1) (XFin (3 / 10))
               (XFin 3) "#ff5334" "#05335c".

(** [new THREE.Color] on the two strings of lines 22-23, as channel bytes
    over 255; the library leaves a colour it cannot parse at white. *)
Definition paletteColor (s : string) : Color xreal :=
  if decide (s = "#ff5334") then
    mkColor (XFin (255 / 255)) (XFin (83 / 255)) (XFin (52 / 255))
  else if decide (s = "#05335c") then
    mkColor (XFin (5 / 255)) (XFin (51 / 255)) (XFin (92 / 255))
  else mkColor (XFin 1) (XFin 1) (XFin 1).

(** Random sources that hand out one value for ever. *)
Definition constant_rng (x : R) : nat -> xreal := λ _, XFin x.

(** The state before [onMounted] has run: no scene. *)
Definition unmounted : World xreal :=
  mkWorld None None None None [] 0 0 [].


(** One particle, randomness 1, and a chosen [randomnessPower]. *)
Definition one_particle (rp : R) : Parameters xreal :=
  mkParameters 1 (XFin (1 / 1000)) (XFin 10) 3 (XFin 1) (XFin 1) (XFin rp)
               "#ff5334" "#05335c".

(** The default parameters with [count] set to zero. *)
Definition no_particles : Parameters xreal :=
  mkParameters 0 (XFin (1 / 1000)) (XFin 10) 3 (XFin 1) (XFin (3 / 10))
               (XFin 3) "#ff5334" "#05335c".

(** ** The life of the component *)

Section Lifecycle.
Context {num : Type} `{!JSNumber num}.
Variable rng : nat -> num.
Variable newColor : string -> Color num.

(** The module-level variables as the script block declares them (lines
    26-29): all [null]. *)
Definition initial : World num :=
  mkWorld None None None None [] 0 0 [].

(** What the [onMounted] callback (lines 94-128) does to the module-level
    variables: nothing without a container (line 95), otherwise it makes
    the scene (line 98) and calls [generateGalaxy] (line 128). The camera,
    the renderer, the controls and the panel live outside these
    variables. *)
Definition onMounted (container : bool) (p : Parameters num) (w : World num)
    : completion * World num :=
  if container then
    generateGalaxy rng newColor p
      (mkWorld (geometry w) (material w) (points w) (Some [])
               (disposed w) (next_id w) (draws w) (trace w))
  else (Normal, w).

(** The calls the panel makes, one per finished edit (lines 132-175): each
    runs [generateGalaxy] on the parameter object as the edit left it. An
    exception ends that call only; the next edit calls again. *)
Fixpoint regenerations (ps : list (Parameters num)) (w : World num)
    : World num :=
  match ps with
  | [] => w
  | p :: ps' => regenerations ps' (generateGalaxy rng newColor p w).2
  end.



(** Two parameter objects that differ at most in [size] and
    [randomnessPower]. *)
Definition same_shape (p q : Parameters num) : Prop :=
  count p = count q /\
  radius p = radius q /\
  branches p = branches q /\
  spin p = spin q /\
  randomness p = randomness q /\
  insideColor p = insideColor q /\
  outsideColor p = outsideColor q.

End Lifecycle.

(** ** Exact arithmetic: inputs and the frame callback *)

(** The contract of [Math.random]: every draw is a number in [[0, 1)]. *)
Definition unit_rng (rng : nat -> xreal) : Prop :=
  forall k, exists u, rng k = XFin u /\ (0 <= u < 1)%R.

(** A finite number between two bounds. *)
Definition xbetween (lo hi : R) (a : xreal) : Prop :=
  exists v, a = XFin v /\ (lo <= v <= hi)%R.

(** The ranges the panel gives its controls (lines 132-173, the [min] and
    [max] of each controller). *)
Definition panel_bounds (p : Parameters xreal) : Prop :=
  (100 <= count p <= 1000000)%Z /\
  xbetween (1 / 1000) (1 / 10) (size p) /\
  xbetween (1 / 100) 20 (radius p) /\
  (2 <= branches p <= 20)%Z /\
  xbetween (-5) 5 (spin p) /\
  xbetween 0 2 (randomness p) /\
  xbetween 1 10 (randomnessPower p).

(** The module-level variables together with [rotation.y] of the object
    that [points] names (meaningless while [points] is [null]). *)
Record Stage := mkStage {
  world : World xreal;
  rotation_y : xreal
}.

(** [generateGalaxy] on a stage: the object made at line 90 is a new
    [THREE.Points], whose rotation is zero; when line 90 is not reached
    [points] names what it named before. *)
Definition stage_generateGalaxy (rng : nat -> xreal)
    (newColor : string -> Color xreal) (p : Parameters xreal) (s : Stage)
    : Stage :=
  let '(c, w') := generateGalaxy rng newColor p (world s) in
  match c, scene (world s) with
  | Normal, Some _ => mkStage w' (of_int 0)
  | _, _ => mkStage w' (rotation_y s)
  end.

(** One frame of [animate] (lines 119-126): lines 121-123 are its only
    effect on the stage. *)
Definition animate (s : Stage) : Stage :=
  match points (world s) with
  | Some _ => mkStage (world s) (rotation_y s + XFin (1 / 1000))%num
  | None => s
  end.

(** ** More concrete inputs *)

(** The state after mounting with [no_particles]: one renderable with two
    empty arrays. *)
Definition empty_galaxy : World xreal :=
  let ge := mkGeometry 0 (Some []) (Some []) in
  let ma := mkMaterial 1 (XFin (1 / 1000)) in
  let pts := mkPoints 2 ge ma in
  mkWorld (Some ge) (Some ma) (Some pts) (Some [pts]) [] 3 0 [EvAdd 2].

(** The default parameters with one field changed. *)
Definition negative_count : Parameters xreal :=
  mkParameters (-1) (XFin (1 / 1000)) (XFin 10) 3 (XFin 1) (XFin (3 / 10))
               (XFin 3) "#ff5334" "#05335c".

Definition no_branches : Parameters xreal :=
  mkParameters 100000 (XFin (1 / 1000)) (XFin 10) 0 (XFin 1) (XFin (3 / 10))
               (XFin 3) "#ff5334" "#05335c".

Definition no_radius : Parameters xreal :=
  mkParameters 100000 (XFin (1 / 1000)) (XFin 0) 3 (XFin 1) (XFin (3 / 10))
               (XFin 3) "#ff5334" "#05335c".

Definition no_randomness : Parameters xreal :=
  mkParameters 100000 (XFin (1 / 1000)) (XFin 10) 3 (XFin 1) (XFin 0)
               (XFin 3) "#ff5334" "#05335c".

Definition larger_points : Parameters xreal :=
  mkParameters 100000 (XFin (1 / 10)) (XFin 10) 3 (XFin 1) (XFin (3 / 10))
               (XFin 7) "#ff5334" "#05335c".
(** * Properties *)

(** ** The loop *)

Section Loop.
Context {num : Type} `{!JSNumber num}.
Variable rng : nat -> num.
Variable newColor : string -> Color num.

Local Open Scope num_scope.

(** Three consecutive writes into an array. *)
Lemma lookup_insert3 (l : list num) (j k : nat) (x y z : num) :
  <[(j + 2)%nat := z]> (<[(j + 1)%nat := y]> (<[j := x]> l)) !! k =
  if decide (k < length l)%nat then
    if decide (k = j) then Some x
    else if decide (k = j + 1)%nat then Some y
    else if decide (k = j + 2)%nat then Some z
    else l !! k
  else None.
Proof.
  destruct (decide (k < length l)%nat) as [Hk|Hk].
  - destruct (decide (k = j)) as [->|Hx].
    + rewrite !list_lookup_insert_ne by lia.
      by rewrite list_lookup_insert_eq.
    + destruct (decide (k = j + 1)%nat) as [->|Hy].
      * rewrite list_lookup_insert_ne by lia.
        rewrite list_lookup_insert_eq; [done|by rewrite length_insert].
      * destruct (decide (k = j + 2)%nat) as [->|Hz].
        -- rewrite list_lookup_insert_eq; [done|by rewrite !length_insert].
        -- by rewrite !list_lookup_insert_ne by lia.
  - apply lookup_ge_None_2. rewrite !length_insert. lia.
Qed.

Lemma body_draws p cI cO i buf d :
  (body rng p cI cO i (buf, d)).2 = (d + 4)%nat.
Proof. cbn. lia. Qed.

Lemma body_length_positions p cI cO i buf d :
  length (positions (body rng p cI cO i (buf, d)).1) = length (positions buf).
Proof. cbn. by rewrite !length_insert. Qed.

Lemma body_length_colors p cI cO i buf d :
  length (colors (body rng p cI cO i (buf, d)).1) = length (colors buf).
Proof. cbn. by rewrite !length_insert. Qed.

(** Iteration [i] writes the slots [3 i], [3 i + 1], [3 i + 2] of
    [positions] and leaves every other slot as it was. *)
Lemma body_positions p cI cO i buf d0 k :
  positions (body rng p cI cO i (buf, (d0 + 4 * i)%nat)).1 !! k =
  if decide (k < length (positions buf))%nat then
    if decide (3 * i <= k < 3 * i + 3)%nat
    then Some (position_at rng p d0 i (k - 3 * i))
    else positions buf !! k
  else None.
Proof.
  cbn [body Math_random fst snd positions].
  rewrite lookup_insert3.
  destruct (decide (k < length (positions buf))%nat); [|done].
  unfold position_at, jitter_at, radius_at.
  replace (S (d0 + 4 * i)) with (d0 + 4 * i + 1)%nat by lia.
  replace (S (d0 + 4 * i + 1)) with (d0 + 4 * i + 2)%nat by lia.
  replace (S (d0 + 4 * i + 2)) with (d0 + 4 * i + 3)%nat by lia.
  repeat case_decide; try lia.
  - replace (k - 3 * i)%nat with 0%nat by lia. done.
  - replace (k - 3 * i)%nat with 1%nat by lia. done.
  - replace (k - 3 * i)%nat with 2%nat by lia. done.
  - done.
Qed.

Lemma body_colors p i buf d0 k :
  colors (body rng p (newColor (insideColor p)) (newColor (outsideColor p))
            i (buf, (d0 + 4 * i)%nat)).1 !! k =
  if decide (k < length (colors buf))%nat then
    if decide (3 * i <= k < 3 * i + 3)%nat
    then Some (color_at rng newColor p d0 i (k - 3 * i))
    else colors buf !! k
  else None.
Proof.
  cbn [body Math_random fst snd colors].
  rewrite lookup_insert3.
  destruct (decide (k < length (colors buf))%nat); [|done].
  unfold color_at, radius_at.
  repeat case_decide; try lia.
  - replace (k - 3 * i)%nat with 0%nat by lia. done.
  - replace (k - 3 * i)%nat with 1%nat by lia. done.
  - replace (k - 3 * i)%nat with 2%nat by lia. done.
  - done.
Qed.

(** The loop from iteration [i] on, [n] iterations: the cursor advances
    by four per iteration, the lengths are kept, and exactly the slots
    of the iterations [i .. i + n - 1] are overwritten. *)
Lemma for_loop_spec p n :
  let cI := newColor (insideColor p) in
  let cO := newColor (outsideColor p) in
  forall i buf d0,
    let res := for_loop rng p cI cO n i (buf, (d0 + 4 * i)%nat) in
    res.2 = (d0 + 4 * (i + n))%nat /\
    length (positions res.1) = length (positions buf) /\
    length (colors res.1) = length (colors buf) /\
    (forall k,
       positions res.1 !! k =
       if decide (k < length (positions buf))%nat then
         if decide (3 * i <= k < 3 * (i + n))%nat
         then Some (position_at rng p d0 (k `div` 3) (k `mod` 3))
         else positions buf !! k
       else None) /\
    (forall k,
       colors res.1 !! k =
       if decide (k < length (colors buf))%nat then
         if decide (3 * i <= k < 3 * (i + n))%nat
         then Some (color_at rng newColor p d0 (k `div` 3) (k `mod` 3))
         else colors buf !! k
       else None).
Proof.
  intros cI cO. induction n as [|n IH]; intros i buf d0 res.
  - subst res. cbn [for_loop fst snd]. split_and!; try done; try (f_equal; lia).
    + intros k. repeat case_decide; try lia; try done.
      apply lookup_ge_None_2. lia.
    + intros k. repeat case_decide; try lia; try done.
      apply lookup_ge_None_2. lia.
  - subst res. cbn [for_loop].
    destruct (body rng p cI cO i (buf, (d0 + 4 * i)%nat)) as [buf1 d1] eqn:Hb.
    pose proof (body_draws p cI cO i buf (d0 + 4 * i)) as Hd.
    pose proof (body_length_positions p cI cO i buf (d0 + 4 * i)) as Hlp.
    pose proof (body_length_colors p cI cO i buf (d0 + 4 * i)) as Hlc.
    pose proof (body_positions p cI cO i buf d0) as Hp.
    pose proof (body_colors p i buf d0) as Hc.
    fold cI cO in Hc. rewrite Hb in Hd, Hlp, Hlc, Hp, Hc.
    cbn [fst snd] in Hd, Hlp, Hlc, Hp, Hc.
    replace d1 with (d0 + 4 * S i)%nat by lia.
    destruct (IH (S i) buf1 d0) as (IH1 & IH2 & IH3 & IH4 & IH5).
    split_and!.
    + rewrite IH1. lia.
    + by rewrite IH2.
    + by rewrite IH3.
    + intros k. rewrite IH4, Hlp, Hp.
      destruct (decide (k < length (positions buf))%nat); [|done].
      repeat case_decide; try lia; try done.
      replace (k `div` 3)%nat with i by (apply Nat.div_unique with (k - 3 * i)%nat; lia).
      replace (k `mod` 3)%nat with (k - 3 * i)%nat
        by (apply Nat.mod_unique with i; lia).
      done.
    + intros k. rewrite IH5, Hlc, Hc.
      destruct (decide (k < length (colors buf))%nat); [|done].
      repeat case_decide; try lia; try done.
      replace (k `div` 3)%nat with i by (apply Nat.div_unique with (k - 3 * i)%nat; lia).
      replace (k `mod` 3)%nat with (k - 3 * i)%nat
        by (apply Nat.mod_unique with i; lia).
      done.
Qed.

(** [generate] with a count that is not negative: it returns, the cursor
    has advanced by four draws per particle, and both arrays have
    [3 * count] slots each holding what its iteration stored. *)
Lemma generate_spec p d :
  (0 <= count p)%Z ->
  exists buf,
    generate rng newColor p d = Some (buf, (d + 4 * Z.to_nat (count p))%nat) /\
    length (positions buf) = (3 * Z.to_nat (count p))%nat /\
    length (colors buf) = (3 * Z.to_nat (count p))%nat /\
    (forall k, (k < 3 * Z.to_nat (count p))%nat ->
       positions buf !! k = Some (position_at rng p d (k `div` 3) (k `mod` 3))) /\
    (forall k, (k < 3 * Z.to_nat (count p))%nat ->
       colors buf !! k = Some (color_at rng newColor p d (k `div` 3) (k `mod` 3))).
Proof.
  intros Hc. unfold generate, Float32Array.
  destruct (Z.ltb_spec (count p * 3) 0) as [?|_]; [lia|].
  set (z := replicate (Z.to_nat (count p * 3)) (of_int 0)).
  assert (length z = (3 * Z.to_nat (count p))%nat) as Hz
    by (subst z; rewrite length_replicate; lia).
  pose proof (for_loop_spec p (Z.to_nat (count p)) 0 (mkBuffers z z) d) as Hl.
  cbn zeta in Hl. replace (d + 4 * 0)%nat with d in Hl by lia.
  destruct (for_loop _ _ _ _ _ _ _) as [buf d'].
  cbn [fst snd positions colors] in Hl.
  destruct Hl as (H1 & H2 & H3 & H4 & H5).
  exists buf. split_and!.
  - do 2 f_equal. rewrite H1. lia.
  - by rewrite H2.
  - by rewrite H3.
  - intros k Hk. rewrite H4. repeat case_decide; try lia; done.
  - intros k Hk. rewrite H5. repeat case_decide; try lia; done.
Qed.

End Loop.

(** ** The generator *)

Section GeneratorProperties.
Context {num : Type} `{!JSNumber num}.
Variable rng : nat -> num.
Variable newColor : string -> Color num.

Local Open Scope num_scope.

(** The slot [3 i + axis] belongs to particle [i]. *)
Lemma slot_index (i axis : nat) :
  (axis < 3)%nat ->
  ((3 * i + axis) `div` 3 = i)%nat /\ ((3 * i + axis) `mod` 3 = axis)%nat.
Proof.
  intros Ha. split; symmetry.
  - apply Nat.div_unique with axis; lia.
  - apply Nat.mod_unique with i; lia.
Qed.


(** C5: particle [i] is stored as
    [x = cos(branchAngle + spinAngle) * radius_i + jitter_x],
    [y = jitter_y], [z = sin(branchAngle + spinAngle) * radius_i + jitter_z]
    with [radius_i = Math.random() * radius] and
    [spinAngle = radius_i * spin]; each value goes through the rounding
    of the [Float32Array] store. *)
Theorem C5_position_formula (p : Parameters num) (d i : nat) :
  (Z.of_nat i < count p)%Z ->
  exists buf d',
    generate rng newColor p d = Some (buf, d') /\
    let radius_i := rng (d + 4 * i)%nat * radius p in
    let sA := radius_i * spin p in
    let bA := branchAngle p i in
    let jitter_x := jitter p (rng (d + 4 * i + 1)%nat) radius_i in
    let jitter_y := jitter p (rng (d + 4 * i + 2)%nat) radius_i in
    let jitter_z := jitter p (rng (d + 4 * i + 3)%nat) radius_i in
    positions buf !! (3 * i)%nat =
      Some (fround (ncos (bA + sA) * radius_i + jitter_x)) /\
    positions buf !! (3 * i + 1)%nat = Some (fround jitter_y) /\
    positions buf !! (3 * i + 2)%nat =
      Some (fround (nsin (bA + sA) * radius_i + jitter_z)).
Proof.
  intros Hi.
  destruct (generate_spec rng newColor p d) as (buf & Hg & _ & _ & Hp & _);
    [lia|].
  exists buf, (d + 4 * Z.to_nat (count p))%nat. split; [done|].
  cbn zeta. split_and!.
  - replace (3 * i)%nat with (3 * i + 0)%nat by lia.
    destruct (slot_index i 0) as [Hq Hr]; [lia|].
    rewrite Hp by lia. by rewrite Hq, Hr.
  - destruct (slot_index i 1) as [Hq Hr]; [lia|].
    rewrite Hp by lia. by rewrite Hq, Hr.
  - destruct (slot_index i 2) as [Hq Hr]; [lia|].
    rewrite Hp by lia. by rewrite Hq, Hr.
Qed.

(** The jitter of every axis is one draw, centred, times [randomness]
    times [radius_i]. *)
Lemma jitter_at_unfold (p : Parameters num) (d i axis : nat) :
  jitter_at rng p d i axis =
  (rng (d + 4 * i + S axis)%nat - nhalf) * randomness p
    * (rng (d + 4 * i)%nat * radius p).
Proof. reflexivity. Qed.

(** No iteration reads [randomnessPower]. *)
Lemma body_randomnessPower (p : Parameters num) (rp : num) cI cO i st :
  body rng (with_randomnessPower rp p) cI cO i st = body rng p cI cO i st.
Proof. by destruct st. Qed.

Lemma for_loop_randomnessPower (p : Parameters num) (rp : num) cI cO n :
  forall i st,
    for_loop rng (with_randomnessPower rp p) cI cO n i st =
    for_loop rng p cI cO n i st.
Proof.
  induction n as [|n IH]; intros i st; [done|].
  cbn [for_loop]. by rewrite body_randomnessPower, IH.
Qed.

(** Changing [randomnessPower] changes nothing in what is generated. *)
Lemma generate_randomnessPower (p : Parameters num) (rp : num) (d : nat) :
  generate rng newColor (with_randomnessPower rp p) d =
  generate rng newColor p d.
Proof.
  unfold generate. cbn [count with_randomnessPower insideColor outsideColor].
  destruct (Float32Array _); [|done].
  by rewrite for_loop_randomnessPower.
Qed.

End GeneratorProperties.

(** C7: the arrays depend on the random source only through the values it
    hands out: two runs with the same parameters whose sources agree on
    the [4 * count] draws they consume produce the same two arrays. *)
Theorem C7_generate_deterministic {num : Type} `{!JSNumber num}
    (rng1 rng2 : nat -> num) (newColor : string -> Color num)
    (p : Parameters num) (d1 d2 : nat) :
  (forall k, (Z.of_nat k < 4 * count p)%Z -> rng1 (d1 + k)%nat = rng2 (d2 + k)%nat) ->
  fst <$> generate rng1 newColor p d1 = fst <$> generate rng2 newColor p d2.
Proof.
  intros Hagree.
  destruct (Z.lt_ge_cases (count p) 0) as [Hneg|Hpos].
  - unfold generate, Float32Array.
    destruct (Z.ltb_spec (count p * 3) 0); [done|lia].
  - destruct (generate_spec rng1 newColor p d1 Hpos)
      as (b1 & -> & Hlp1 & Hlc1 & Hp1 & Hc1).
    destruct (generate_spec rng2 newColor p d2 Hpos)
      as (b2 & -> & Hlp2 & Hlc2 & Hp2 & Hc2).
    cbn. f_equal.
    assert (forall i j, (i < Z.to_nat (count p))%nat -> (j < 4)%nat ->
              rng1 (d1 + 4 * i + j)%nat = rng2 (d2 + 4 * i + j)%nat) as Hd.
    { intros i j Hi Hj. rewrite <- !Nat.add_assoc. apply Hagree. lia. }
    assert (forall k, (k < 3 * Z.to_nat (count p))%nat ->
              (k `div` 3 < Z.to_nat (count p))%nat) as Hdiv.
    { intros k Hk. apply Nat.Div0.div_lt_upper_bound. lia. }
    assert (forall i, (i < Z.to_nat (count p))%nat ->
              radius_at rng1 p d1 i = radius_at rng2 p d2 i) as Hrad.
    { intros i Hi. unfold radius_at.
      specialize (Hd i 0%nat Hi ltac:(lia)). rewrite !Nat.add_0_r in Hd.
      by rewrite Hd. }
    destruct b1 as [ps1 cs1], b2 as [ps2 cs2].
    cbn [positions colors] in *. f_equal.
    + apply list_eq. intros k.
      destruct (decide (k < 3 * Z.to_nat (count p))%nat) as [Hk|Hk].
      * rewrite Hp1, Hp2 by done. f_equal.
        specialize (Hdiv k Hk).
        unfold position_at, jitter_at. rewrite !Hrad by done.
        rewrite !(Hd (k `div` 3)%nat) by lia. done.
      * rewrite !lookup_ge_None_2; [done|lia|lia].
    + apply list_eq. intros k.
      destruct (decide (k < 3 * Z.to_nat (count p))%nat) as [Hk|Hk].
      * rewrite Hc1, Hc2 by done. f_equal.
        unfold color_at. rewrite !Hrad by auto. done.
      * rewrite !lookup_ge_None_2; [done|lia|lia].
Qed.

(** ** The scene binder *)

Section BinderProperties.
Context {num : Type} `{!JSNumber num}.
Variable rng : nat -> num.
Variable newColor : string -> Color num.

(** C10: with no scene ([scene] is [null]) the call returns at once and
    the whole state is as before: the active renderable, its geometry
    and material, the set of disposed resources, the allocation counter
    and the random source. *)
Theorem C10_no_scene_no_effect (p : Parameters num) (w : World num) :
  scene w = None ->
  generateGalaxy rng newColor p w = (Normal, w).
Proof. intros Hs. unfold generateGalaxy. by rewrite Hs. Qed.

(** The cases of lines 36-40: a previous renderable or none, each of
    the two resources present or [null]. *)
Local Ltac previous_cases w :=
  unfold dispose_previous, released, without_previous;
  destruct (points w); [|try reflexivity];
  destruct (geometry w); cbn;
  destruct (material w); cbn.

Lemma dispose_previous_next_id (w : World num) :
  next_id (dispose_previous w) = next_id w.
Proof.
  previous_cases w; reflexivity.
Qed.

Lemma dispose_previous_draws (w : World num) :
  draws (dispose_previous w) = draws w.
Proof.
  previous_cases w; reflexivity.
Qed.

Lemma dispose_previous_scene (w : World num) :
  scene (dispose_previous w) = without_previous w <$> scene w.
Proof.
  previous_cases w; by destruct (scene w).
Qed.

Lemma dispose_previous_disposed (w : World num) :
  disposed (dispose_previous w) = disposed w ++ released w.
Proof.
  previous_cases w; rewrite <- ?app_assoc, ?app_nil_r; done.
Qed.

Lemma dispose_previous_trace (w : World num) :
  trace (dispose_previous w) =
  trace w ++ (EvDispose <$> released w)
          ++ option_list (EvRemove <$> (o_id <$> points w)).
Proof.
  previous_cases w; rewrite <- ?app_assoc, ?app_nil_r; done.
Qed.

(** With a scene and a count that is not negative, the call runs to its
    end: the outcome is the publication of what [generate] returned. *)
Lemma generateGalaxy_runs (p : Parameters num) (w : World num) cs :
  scene w = Some cs ->
  (0 <= count p)%Z ->
  exists buf,
    generate rng newColor p (draws w)
      = Some (buf, (draws w + 4 * Z.to_nat (count p))%nat) /\
    length (positions buf) = (3 * Z.to_nat (count p))%nat /\
    length (colors buf) = (3 * Z.to_nat (count p))%nat /\
    generateGalaxy rng newColor p w =
      (Normal, publish p (next_id w) buf (draws w + 4 * Z.to_nat (count p))
                 (new_geometry (dispose_previous w))).
Proof.
  intros Hs Hc.
  destruct (generate_spec rng newColor p (draws w) Hc)
    as (buf & Hg & Hlp & Hlc & _).
  exists buf. split_and!; try done.
  unfold generateGalaxy. rewrite Hs. cbn zeta.
  cbn [new_geometry draws]. rewrite dispose_previous_draws, Hg.
  by rewrite dispose_previous_next_id.
Qed.

(** A negative count: the allocation of line 45 raises after lines 36-43
    have run, so the previous renderable is already disposed and out of
    the scene, and [geometry] is a new empty geometry, while [points] and
    [material] still name the previous objects. *)
Lemma generateGalaxy_negative_count (p : Parameters num) (w : World num) cs :
  scene w = Some cs ->
  (count p < 0)%Z ->
  generateGalaxy rng newColor p w =
    (ThrowRangeError, new_geometry (dispose_previous w)).
Proof.
  intros Hs Hc. unfold generateGalaxy. rewrite Hs. cbn zeta.
  unfold generate, Float32Array.
  destruct (Z.ltb_spec (count p * 3) 0); [done|lia].
Qed.

(** The same, with the resulting state written out field by field. *)
Lemma generateGalaxy_swap (p : Parameters num) (w : World num) cs :
  scene w = Some cs ->
  (0 <= count p)%Z ->
  exists buf,
    let ge := mkGeometry (next_id w) (Some (positions buf)) (Some (colors buf)) in
    let ma := mkMaterial (S (next_id w)) (size p) in
    let pts := mkPoints (S (S (next_id w))) ge ma in
    length (positions buf) = (3 * Z.to_nat (count p))%nat /\
    length (colors buf) = (3 * Z.to_nat (count p))%nat /\
    generateGalaxy rng newColor p w =
      (Normal,
       mkWorld (Some ge) (Some ma) (Some pts)
               (Some (without_previous w cs ++ [pts]))
               (disposed w ++ released w)
               (S (S (S (next_id w))))
               (draws w + 4 * Z.to_nat (count p))
               (trace w ++ (EvDispose <$> released w)
                  ++ option_list (EvRemove <$> (o_id <$> points w))
                  ++ [EvAdd (S (S (next_id w)))])).
Proof.
  intros Hs Hc.
  destruct (generateGalaxy_runs p w cs Hs Hc) as (buf & _ & Hlp & Hlc & Hg).
  exists buf. cbn zeta. split_and!; try done.
  rewrite Hg. f_equal.
  unfold publish, scene_add, new_geometry. cbn.
  rewrite dispose_previous_next_id, dispose_previous_scene, Hs,
    dispose_previous_disposed, dispose_previous_trace.
  cbn. by rewrite <- !app_assoc.
Qed.

Lemma mounted_wf : wf (@mounted num).
Proof.
  unfold wf, mounted. cbn. split_and!; try done.
  - by intros cs [= <-].
  - intros id Hid. by apply elem_of_nil in Hid.
Qed.

(** In a well-formed state the scene holds at most the active
    renderable, and removing that one leaves the scene empty. *)
Lemma wf_without_previous (w : World num) cs :
  wf w -> scene w = Some cs -> without_previous w cs = [].
Proof.
  intros (Hsc & _) Hs. rewrite (Hsc cs Hs). unfold without_previous.
  destruct (points w) as [old|]; cbn; [|done].
  by rewrite decide_True.
Qed.

(** In a well-formed state what is released is what the active
    renderable holds. *)
Lemma wf_released (w : World num) pts :
  wf w -> points w = Some pts ->
  released w = [g_id (o_geometry pts); m_id (o_material pts)].
Proof.
  intros (_ & Hp & _) Hpts. destruct (Hp pts Hpts) as (Hg & Hm & _).
  unfold released. by rewrite Hpts, Hg, Hm.
Qed.

Lemma wf_released_bound (w : World num) id :
  wf w -> id ∈ released w -> (id < next_id w)%nat.
Proof.
  intros (_ & _ & _ & Hg & Hm). unfold released.
  destruct (points w); [|by intros ?%elem_of_nil].
  destruct (geometry w) as [ge|] eqn:Ege, (material w) as [ma|] eqn:Ema; cbn;
    rewrite ?elem_of_cons, ?elem_of_nil; intros Hid.
  - destruct Hid as [->|[->|[]]]; auto.
  - destruct Hid as [->|[]]; auto.
  - destruct Hid as [->|[]]; auto.
  - done.
Qed.

(** The invariant is kept by every call that runs to its end. *)
Lemma generateGalaxy_wf (p : Parameters num) (w : World num) cs :
  wf w -> scene w = Some cs -> (0 <= count p)%Z ->
  wf (generateGalaxy rng newColor p w).2.
Proof.
  intros Hwf Hs Hc.
  destruct (generateGalaxy_swap p w cs Hs Hc) as (buf & _ & _ & ->).
  cbn [snd]. rewrite (wf_without_previous w cs Hwf Hs).
  assert (forall id, id ∈ disposed w ++ released w -> (id < next_id w)%nat) as Hb.
  { intros id [Hid|Hid]%elem_of_app.
    - by apply Hwf.
    - by apply wf_released_bound. }
  unfold wf. cbn. split_and!.
  - by intros ? [= <-].
  - intros pts [= <-]. cbn. split_and!; try done.
    + intros Hin%Hb. lia.
    + intros Hin%Hb. lia.
  - intros id Hid%Hb. lia.
  - intros ge [= <-]. cbn. lia.
  - intros ma [= <-]. cbn. lia.
Qed.


(** C8: two calls in a row, from a well-formed state with a scene. Both
    return; after the second the scene holds exactly one object, the
    second renderable, which is the active one and whose resources are
    live; the geometry and the material of the first renderable are
    disposed; and the second call made exactly these calls, in this
    order: dispose the first geometry, dispose the first material,
    remove the first renderable from the scene, add the second. *)
Theorem C8_two_calls_one_renderable (p1 p2 : Parameters num) (w0 : World num) cs :
  wf w0 ->
  scene w0 = Some cs ->
  (0 <= count p1)%Z ->
  (0 <= count p2)%Z ->
  exists w1 w2 r1 r2,
    generateGalaxy rng newColor p1 w0 = (Normal, w1) /\
    generateGalaxy rng newColor p2 w1 = (Normal, w2) /\
    points w1 = Some r1 /\
    scene w1 = Some [r1] /\
    points w2 = Some r2 /\
    scene w2 = Some [r2] /\
    o_id r1 <> o_id r2 /\
    g_id (o_geometry r1) ∈ disposed w2 /\
    m_id (o_material r1) ∈ disposed w2 /\
    (g_id (o_geometry r2) ∉ disposed w2) /\
    (m_id (o_material r2) ∉ disposed w2) /\
    trace w2 = trace w1 ++ [EvDispose (g_id (o_geometry r1));
                            EvDispose (m_id (o_material r1));
                            EvRemove (o_id r1);
                            EvAdd (o_id r2)].
Proof.
  intros Hwf0 Hs0 Hc1 Hc2.
  pose proof (generateGalaxy_wf p1 w0 cs Hwf0 Hs0 Hc1) as Hwf1.
  destruct (generateGalaxy_swap p1 w0 cs Hs0 Hc1) as (b1 & _ & _ & Hg1).
  cbn zeta in Hg1. rewrite (wf_without_previous w0 cs Hwf0 Hs0) in Hg1.
  rewrite Hg1 in Hwf1. cbn [snd] in Hwf1.
  match type of Hg1 with
    _ = (_, mkWorld _ _ (Some ?r) _ _ _ _ _) => set (r1 := r) in * end.
  match type of Hg1 with _ = (_, ?w) => set (w1 := w) in * end.
  assert (scene w1 = Some ([] ++ [r1])) as Hs1 by done.
  assert (points w1 = Some r1) as Hp1 by done.
  pose proof (generateGalaxy_wf p2 w1 _ Hwf1 Hs1 Hc2) as Hwf2.
  destruct (generateGalaxy_swap p2 w1 _ Hs1 Hc2) as (b2 & _ & _ & Hg2).
  cbn zeta in Hg2. rewrite (wf_without_previous w1 _ Hwf1 Hs1) in Hg2.
  rewrite (wf_released w1 r1 Hwf1 Hp1) in Hg2.
  rewrite Hg2 in Hwf2. cbn [snd] in Hwf2.
  match type of Hg2 with
    _ = (_, mkWorld _ _ (Some ?r) _ _ _ _ _) => set (r2 := r) in * end.
  match type of Hg2 with _ = (_, ?w) => set (w2 := w) in * end.
  exists w1, w2, r1, r2.
  destruct Hwf2 as (_ & Hlive & _).
  destruct (Hlive r2 eq_refl) as (_ & _ & Hng & Hnm).
  split_and!; try done.
  - cbn. lia.
  - cbn. rewrite elem_of_app, !elem_of_cons. auto.
  - cbn. rewrite elem_of_app, !elem_of_cons. auto.
Qed.

End BinderProperties.

(** ** Exact arithmetic *)

Section Exact.

Local Open Scope R_scope.

(** Unfolds the operations of the instance, and nothing of [R]. *)
Local Ltac xreal_ops :=
  cbn [nadd nsub nmul ncos nsin nPI nNaN nhalf of_int fround
       xreal_number xlift1 xlift2].

Lemma xdiv_fin (x y : R) : y <> 0 -> xdiv (XFin x) (XFin y) = XFin (x / y).
Proof. intros Hy. unfold xdiv. by destruct (Req_dec_T y 0). Qed.

(** The arm of particle [i], for a positive number of arms. *)
Lemma branchAngle_exact (p : Parameters xreal) (i : nat) :
  (0 < branches p)%Z ->
  branchAngle p i =
  XFin (IZR (Z.of_nat i `mod` branches p) / IZR (branches p) * (2 * PI)).
Proof.
  intros Hb. unfold branchAngle, js_rem.
  destruct (Z.eqb_spec (branches p) 0) as [?|_]; [lia|].
  rewrite Z.rem_mod_nonneg by lia.
  xreal_ops. cbn [ndiv xreal_number].
  rewrite xdiv_fin by (apply not_0_IZR; lia).
  xreal_ops. f_equal. lra.
Qed.

(** C4: the arm of particle [i] is [(i mod branches) / branches * 2 PI],
    a function of the index alone (no draw enters [branchAngle]); with
    three arms, particles 0, 3, 6 are at angle 0, particles 1, 4, 7 at
    [2 PI / 3] and particles 2, 5, 8 at [4 PI / 3]. *)
Theorem C4_branchAngle_round_robin (p : Parameters xreal) :
  (0 < branches p)%Z ->
  (forall i : nat,
     branchAngle p i =
     XFin (IZR (Z.of_nat i `mod` branches p) / IZR (branches p) * (2 * PI))) /\
  (branches p = 3%Z ->
     branchAngle p 0 = XFin 0 /\
     branchAngle p 3 = XFin 0 /\
     branchAngle p 6 = XFin 0 /\
     branchAngle p 1 = XFin (2 * PI / 3) /\
     branchAngle p 4 = XFin (2 * PI / 3) /\
     branchAngle p 7 = XFin (2 * PI / 3) /\
     branchAngle p 2 = XFin (4 * PI / 3) /\
     branchAngle p 5 = XFin (4 * PI / 3) /\
     branchAngle p 8 = XFin (4 * PI / 3)).
Proof.
  intros Hb. split; [intros i; by apply branchAngle_exact|].
  intros H3.
  assert (forall (i : nat) (m : Z) (x : R),
            (Z.of_nat i `mod` 3 = m)%Z -> IZR m / 3 * (2 * PI) = x ->
            branchAngle p i = XFin x) as Hi.
  { intros i m x Hm Hx. rewrite branchAngle_exact by done.
    rewrite H3, Hm. by f_equal. }
  split_and!.
  - apply (Hi 0%nat 0%Z); [done|lra].
  - apply (Hi 3%nat 0%Z); [done|lra].
  - apply (Hi 6%nat 0%Z); [done|lra].
  - apply (Hi 1%nat 1%Z); [done|lra].
  - apply (Hi 4%nat 1%Z); [done|lra].
  - apply (Hi 7%nat 1%Z); [done|lra].
  - apply (Hi 2%nat 2%Z); [done|lra].
  - apply (Hi 5%nat 2%Z); [done|lra].
  - apply (Hi 8%nat 2%Z); [done|lra].
Qed.






(** C1, on the code: the jitter is [(u - 0.5) * randomness * radius_i]
    for one draw [u]; [randomnessPower] does not enter. With one
    particle, randomness 1, radius 10 and every draw 0.75, the arrays
    are the same for [randomnessPower = 1] and [randomnessPower = 3];
    the stored [y] is [0.25 * 1 * 7.5 = 15/8], not the
    [0.25 * 0.75^3 * 1 * 7.5] of a jitter shaped by the exponent 3. *)
Theorem C1_randomnessPower_unused (newColor : string -> Color xreal) (d : nat) :
  let rng := constant_rng (3 / 4) in
  generate rng newColor (one_particle 1) d
    = generate rng newColor (one_particle 3) d /\
  jitter_at rng (one_particle 3) d 0 1
    = XFin ((3 / 4 - 1 / 2) * 1 * (3 / 4 * 10)) /\
  (exists buf d',
     generate rng newColor (one_particle 3) d = Some (buf, d') /\
     positions buf !! 1%nat = Some (XFin (15 / 8))) /\
  15 / 8 <> (3 / 4 - 1 / 2) * (3 / 4) ^ 3 * 1 * (3 / 4 * 10).
Proof.
  intros rng. split_and!.
  - apply (generate_randomnessPower rng newColor (one_particle 3) (XFin 1) d).
  - reflexivity.
  - destruct (generate_spec rng newColor (one_particle 3) d)
      as (buf & Hg & _ & _ & Hp & _); [done|].
    exists buf, (d + 4 * Z.to_nat (count (one_particle 3)))%nat.
    split; [done|].
    rewrite Hp by (change (1 < 3)%nat; lia).
    change (1 `div` 3)%nat with 0%nat. change (1 `mod` 3)%nat with 1%nat.
    unfold position_at, jitter_at, radius_at, jitter, rng, constant_rng.
    cbn [one_particle randomness radius]. xreal_ops.
    do 2 f_equal. lra.
  - lra.
Qed.


End Exact.

(** ** Instances *)



Lemma C4_branchAngle_round_robin_witness :
  (0 < branches parameters)%Z /\
  branchAngle parameters 7 = XFin (IZR (7 `mod` 3) / 3 * (2 * PI))%R /\
  branchAngle parameters 4 = XFin (2 * PI / 3)%R /\
  branchAngle parameters 5 = XFin (4 * PI / 3)%R.
Proof.
  split; [reflexivity|].
  destruct (C4_branchAngle_round_robin parameters) as [Hall Hthree];
    [reflexivity|].
  split; [exact (Hall 7%nat)|].
  destruct (Hthree eq_refl) as (_ & _ & _ & _ & H4 & _ & _ & H5 & _).
  split; [exact H4|exact H5].
Defined.

Lemma C5_position_formula_witness :
  (Z.of_nat 0 < count parameters)%Z /\
  exists buf d',
    generate (constant_rng (1 / 2)) paletteColor parameters 0 = Some (buf, d') /\
    let rng := constant_rng (1 / 2) in
    let radius_i := (rng (0 + 4 * 0)%nat * radius parameters)%num in
    let sA := (radius_i * spin parameters)%num in
    let bA := branchAngle parameters 0 in
    let jitter_x := jitter parameters (rng (0 + 4 * 0 + 1)%nat) radius_i in
    let jitter_y := jitter parameters (rng (0 + 4 * 0 + 2)%nat) radius_i in
    let jitter_z := jitter parameters (rng (0 + 4 * 0 + 3)%nat) radius_i in
    positions buf !! (3 * 0)%nat =
      Some (fround (ncos (bA + sA) * radius_i + jitter_x))%num /\
    positions buf !! (3 * 0 + 1)%nat = Some (fround jitter_y) /\
    positions buf !! (3 * 0 + 2)%nat =
      Some (fround (nsin (bA + sA) * radius_i + jitter_z))%num.
Proof.
  split; [reflexivity|].
  apply (C5_position_formula (constant_rng (1 / 2)) paletteColor parameters 0 0).
  reflexivity.
Defined.


Lemma C7_generate_deterministic_witness :
  (forall k, (Z.of_nat k < 4 * count parameters)%Z ->
     constant_rng (1 / 2) (0 + k)%nat = constant_rng (1 / 2) (7 + k)%nat) /\
  fst <$> generate (constant_rng (1 / 2)) paletteColor parameters 0
    = fst <$> generate (constant_rng (1 / 2)) paletteColor parameters 7.
Proof.
  split; [intros k _; reflexivity|].
  apply (C7_generate_deterministic (constant_rng (1 / 2)) (constant_rng (1 / 2))
           paletteColor parameters 0 7).
  intros k _. reflexivity.
Defined.

Lemma C8_two_calls_one_renderable_witness :
  wf (@mounted xreal) /\
  scene (@mounted xreal) = Some [] /\
  (0 <= count parameters)%Z /\
  (0 <= count no_particles)%Z /\
  exists w1 w2 r1 r2,
    generateGalaxy (constant_rng (1 / 2)) paletteColor parameters mounted
      = (Normal, w1) /\
    generateGalaxy (constant_rng (1 / 2)) paletteColor no_particles w1
      = (Normal, w2) /\
    points w1 = Some r1 /\
    scene w1 = Some [r1] /\
    points w2 = Some r2 /\
    scene w2 = Some [r2] /\
    o_id r1 <> o_id r2 /\
    g_id (o_geometry r1) ∈ disposed w2 /\
    m_id (o_material r1) ∈ disposed w2 /\
    (g_id (o_geometry r2) ∉ disposed w2) /\
    (m_id (o_material r2) ∉ disposed w2) /\
    trace w2 = trace w1 ++ [EvDispose (g_id (o_geometry r1));
                            EvDispose (m_id (o_material r1));
                            EvRemove (o_id r1);
                            EvAdd (o_id r2)].
Proof.
  split; [apply mounted_wf|].
  split; [reflexivity|].
  split; [vm_compute; discriminate|].
  split; [vm_compute; discriminate|].
  apply (C8_two_calls_one_renderable (constant_rng (1 / 2)) paletteColor
           parameters no_particles mounted []).
  - apply mounted_wf.
  - reflexivity.
  - vm_compute; discriminate.
  - vm_compute; discriminate.
Defined.

Lemma C10_no_scene_no_effect_witness :
  scene unmounted = None /\
  generateGalaxy (constant_rng (1 / 2)) paletteColor parameters unmounted
    = (Normal, unmounted).
Proof.
  split; [reflexivity|].
  apply (C10_no_scene_no_effect (constant_rng (1 / 2)) paletteColor
           parameters unmounted).
  reflexivity.
Defined.

(** * Further properties *)

(** ** Failed calls, sequences of calls, mounting *)

Section LifecycleProperties.
Context {num : Type} `{!JSNumber num}.
Variable rng : nat -> num.
Variable newColor : string -> Color num.

(** The state in which a call with a negative count leaves a well-formed
    state that had a renderable active. *)
Lemma thrown_state (w : World num) cs old :
  wf w -> scene w = Some cs -> points w = Some old ->
  let w' := new_geometry (dispose_previous w) in
  scene w' = Some [] /\
  points w' = Some old /\
  material w' = Some (o_material old) /\
  geometry w' = Some (mkGeometry (next_id w) None None) /\
  disposed w' = disposed w ++ [g_id (o_geometry old); m_id (o_material old)] /\
  next_id w' = S (next_id w) /\
  draws w' = draws w /\
  trace w' = trace w ++ [EvDispose (g_id (o_geometry old));
                         EvDispose (m_id (o_material old));
                         EvRemove (o_id old)].
Proof.
  intros Hwf Hs Hp w'. subst w'.
  pose proof (wf_without_previous w cs Hwf Hs) as Hwp.
  pose proof (wf_released w old Hwf Hp) as Hrel.
  destruct Hwf as (_ & Hlive & _). destruct (Hlive old Hp) as (Hg & Hm & _).
  unfold new_geometry.
  cbn [scene points material geometry disposed draws trace next_id].
  rewrite dispose_previous_scene, dispose_previous_disposed,
    dispose_previous_trace, dispose_previous_draws, dispose_previous_next_id,
    Hs, Hrel, Hp.
  cbn [fmap option_fmap option_map]. rewrite Hwp.
  assert (points (dispose_previous w) = Some old
          /\ material (dispose_previous w) = Some (o_material old)) as [-> ->].
  { unfold dispose_previous. rewrite Hp, Hg. cbn. by rewrite Hm. }
  split_and!; done.
Qed.


(** X2: the call after a failed one. A call with a count that is not
    negative, made after a call with a negative count, returns normally
    and the state is well-formed again, the scene holding exactly the new
    renderable. It has disposed the geometry the failed call allocated
    and never used, and the material of the old renderable a second
    time. *)
Theorem X2_recovery_after_throw
    (p_bad p : Parameters num) (w : World num) cs old :
  wf w ->
  scene w = Some cs ->
  points w = Some old ->
  (count p_bad < 0)%Z ->
  (0 <= count p)%Z ->
  exists w2 r,
    generateGalaxy rng newColor p (generateGalaxy rng newColor p_bad w).2
      = (Normal, w2) /\
    wf w2 /\
    points w2 = Some r /\
    scene w2 = Some [r] /\
    disposed w2 = disposed w ++ [g_id (o_geometry old); m_id (o_material old);
                                 next_id w; m_id (o_material old)].
Proof.
  intros Hwf Hs Hp Hbad Hc.
  rewrite (generateGalaxy_negative_count rng newColor p_bad w cs Hs Hbad).
  cbn [snd].
  destruct (thrown_state w cs old Hwf Hs Hp)
    as (Hs1 & Hp1 & Hm1 & Hg1 & Hd1 & Hn1 & _ & _).
  set (w1 := new_geometry (dispose_previous w)) in *.
  destruct (generateGalaxy_swap rng newColor p w1 [] Hs1 Hc)
    as (buf & _ & _ & Hgen).
  cbn zeta in Hgen.
  assert (released w1 = [next_id w; m_id (o_material old)]) as Hrel
    by (unfold released; rewrite Hp1, Hg1, Hm1; done).
  assert (without_previous w1 [] = []) as Hwp
    by (unfold without_previous; rewrite Hp1; done).
  rewrite Hrel, Hwp, Hd1, Hn1, <- app_assoc in Hgen. cbn [app] in Hgen.
  eexists _, _. split; [exact Hgen|].
  destruct Hwf as (_ & Hlive & Hdis & Hgb & Hmb).
  destruct (Hlive old Hp) as (Hgo & Hmo & _).
  assert (forall id,
            id ∈ disposed w ++ [g_id (o_geometry old); m_id (o_material old);
                                next_id w; m_id (o_material old)] ->
            (id < S (next_id w))%nat) as Hb.
  { intros id. rewrite elem_of_app, !elem_of_cons, elem_of_nil.
    intros [Hin|[->|[->|[->|[->|[]]]]]].
    - apply Hdis in Hin. lia.
    - specialize (Hgb _ Hgo). lia.
    - specialize (Hmb _ Hmo). lia.
    - lia.
    - specialize (Hmb _ Hmo). lia. }
  split_and!; try done.
  unfold wf. cbn. split_and!.
  - by intros ? [= <-].
  - intros pts [= <-]. cbn. split_and!; try done.
    + intros Hin%Hb. lia.
    + intros Hin%Hb. lia.
  - intros id Hid%Hb. lia.
  - intros ge [= <-]. cbn. lia.
  - intros ma [= <-]. cbn. lia.
Qed.







(** X5: while there is no scene (mounting found no container), no
    sequence of calls ever allocates, disposes, draws or records
    anything. *)
Theorem X5_no_scene_nothing_ever (ps : list (Parameters num)) (p : Parameters num)
    (w : World num) :
  scene w = None ->
  onMounted rng newColor false p w = (Normal, w) /\
  regenerations rng newColor ps w = w.
Proof.
  intros Hs. split; [done|].
  induction ps as [|q ps IH]; [done|].
  cbn [regenerations]. unfold generateGalaxy. rewrite Hs. exact IH.
Qed.

(** No iteration reads more of the parameters than their shape. *)
Lemma body_same_shape (p q : Parameters num) cI cO i st :
  same_shape p q -> body rng p cI cO i st = body rng q cI cO i st.
Proof.
  intros (_ & Hr & Hb & Hsp & Hrd & _). destruct st as [buf d].
  unfold body, spinAngle, branchAngle, jitter. by rewrite Hr, Hb, Hsp, Hrd.
Qed.

Lemma for_loop_same_shape (p q : Parameters num) cI cO n :
  same_shape p q ->
  forall i st, for_loop rng p cI cO n i st = for_loop rng q cI cO n i st.
Proof.
  intros Hpq. induction n as [|n IH]; intros i st; [done|].
  cbn [for_loop]. by rewrite (body_same_shape p q), IH.
Qed.

(** X6: [size] and [randomnessPower] do not reach the arrays. Two
    parameter objects that agree on everything else give, from the same
    draws, the same outcome of [generate], and from the same state
    renderables with the same geometry. *)
Theorem X6_arrays_independent_of_size (p q : Parameters num) (w : World num) (d : nat) :
  same_shape p q ->
  generate rng newColor p d = generate rng newColor q d /\
  (generateGalaxy rng newColor p w).1 = (generateGalaxy rng newColor q w).1 /\
  geometry (generateGalaxy rng newColor p w).2
    = geometry (generateGalaxy rng newColor q w).2.
Proof.
  intros Hpq.
  assert (forall d', generate rng newColor p d' = generate rng newColor q d') as Hg.
  { intros d'. pose proof Hpq as (Hc & _ & _ & _ & _ & Hi & Ho).
    unfold generate. rewrite Hc, Hi, Ho.
    destruct (Float32Array _); [|done].
    by rewrite (for_loop_same_shape p q). }
  split; [apply Hg|].
  unfold generateGalaxy. destruct (scene w); [|done]. cbn zeta.
  rewrite Hg. destruct (generate _ _ q _) as [[buf d']|]; done.
Qed.



(** X7: the arms repeat with period [branches]: particle [i + branches]
    is on the arm of particle [i]. *)
Theorem X7_branchAngle_periodic (p : Parameters num) (i : nat) :
  (0 < branches p)%Z ->
  branchAngle p (i + Z.to_nat (branches p)) = branchAngle p i.
Proof.
  intros Hb. unfold branchAngle, js_rem.
  destruct (Z.eqb_spec (branches p) 0) as [?|_]; [lia|].
  rewrite !Z.rem_mod_nonneg by lia.
  replace (Z.of_nat (i + Z.to_nat (branches p)))
    with (Z.of_nat i + 1 * branches p)%Z by lia.
  by rewrite Z_mod_plus_full.
Qed.

End LifecycleProperties.

(** ** Exact arithmetic: ranges and degenerate parameters *)

Section ExactRanges.

Local Open Scope R_scope.

Local Ltac xreal_ops :=
  cbn [nadd nsub nmul ndiv ncos nsin nPI nNaN nhalf of_int fround
       xreal_number xlift1 xlift2].

(** The three stored coordinates of a particle as real numbers, when the
    parameters it reads, its arm and its four draws are finite. *)
Lemma position_at_exact (rng : nat -> xreal) (p : Parameters xreal)
    (d i : nat) (rad sp rnd theta u ux uy uz : R) :
  radius p = XFin rad -> spin p = XFin sp -> randomness p = XFin rnd ->
  branchAngle p i = XFin theta ->
  rng (d + 4 * i)%nat = XFin u ->
  rng (d + 4 * i + 1)%nat = XFin ux ->
  rng (d + 4 * i + 2)%nat = XFin uy ->
  rng (d + 4 * i + 3)%nat = XFin uz ->
  position_at rng p d i 0
    = XFin (cos (theta + u * rad * sp) * (u * rad) + (ux - 1 / 2) * rnd * (u * rad)) /\
  position_at rng p d i 1 = XFin ((uy - 1 / 2) * rnd * (u * rad)) /\
  position_at rng p d i 2
    = XFin (sin (theta + u * rad * sp) * (u * rad) + (uz - 1 / 2) * rnd * (u * rad)).
Proof.
  intros Hrad Hsp Hrnd Hth Hu Hux Huy Huz.
  unfold position_at, jitter_at, jitter, spinAngle, radius_at.
  rewrite Hrad, Hsp, Hrnd, Hth, Hu, Hux, Huy, Huz. xreal_ops. done.
Qed.

(** The slots of particle [i] in what [generate] returns. *)
Lemma generate_slots (rng : nat -> xreal) (newColor : string -> Color xreal)
    (p : Parameters xreal) (d i : nat) :
  (Z.of_nat i < count p)%Z ->
  exists buf d',
    generate rng newColor p d = Some (buf, d') /\
    forall axis, (axis < 3)%nat ->
      positions buf !! (3 * i + axis)%nat = Some (position_at rng p d i axis) /\
      colors buf !! (3 * i + axis)%nat = Some (color_at rng newColor p d i axis).
Proof.
  intros Hi.
  destruct (generate_spec rng newColor p d) as (buf & Hg & _ & _ & Hp & Hc);
    [lia|].
  exists buf, (d + 4 * Z.to_nat (count p))%nat. split; [done|].
  intros axis Ha. destruct (slot_index i axis Ha) as [Hq Hr].
  rewrite Hp, Hc by lia. by rewrite Hq, Hr.
Qed.

(** Bounds on the three coordinates, from draws in [[0, 1)]. *)
Lemma coordinates_bounded (rad rnd a u ux uy uz : R) :
  0 <= rad -> 0 <= rnd ->
  0 <= u < 1 -> 0 <= ux < 1 -> 0 <= uy < 1 -> 0 <= uz < 1 ->
  let B := rad * (1 + rnd / 2) in
  - B <= cos a * (u * rad) + (ux - 1 / 2) * rnd * (u * rad) <= B /\
  - (rad * rnd / 2) <= (uy - 1 / 2) * rnd * (u * rad) <= rad * rnd / 2 /\
  - B <= sin a * (u * rad) + (uz - 1 / 2) * rnd * (u * rad) <= B.
Proof.
  intros Hrad Hrnd Hu Hux Huy Huz B. subst B.
  pose proof (COS_bound a) as [Hc1 Hc2].
  pose proof (SIN_bound a) as [Hs1 Hs2].
  set (r := u * rad). assert (0 <= r <= rad) as Hr by (subst r; nra).
  assert (0 <= rnd * r <= rnd * rad) as Hq by nra.
  set (q := rnd * r) in *.
  assert (forall v, 0 <= v < 1 ->
            - (q / 2) <= (v - 1 / 2) * rnd * r <= q / 2) as Hj.
  { intros v Hv. replace ((v - 1 / 2) * rnd * r) with ((v - 1 / 2) * q)
      by (subst q; ring). nra. }
  pose proof (Hj ux Hux). pose proof (Hj uy Huy). pose proof (Hj uz Huz).
  assert (- r <= cos a * r <= r) by nra.
  assert (- r <= sin a * r <= r) by nra.
  split_and!; nra.
Qed.

(** X8: where a particle can be. With a radius and a randomness that are
    not negative, a finite spin, at least one arm and draws in [[0, 1)],
    every particle is stored with finite coordinates,
    [|x|] and [|z|] at most [radius * (1 + randomness / 2)] and [|y|] at
    most [radius * randomness / 2]. *)
Theorem X8_position_bounds (rng : nat -> xreal) (newColor : string -> Color xreal)
    (p : Parameters xreal) (d i : nat) (rad sp rnd : R) :
  unit_rng rng ->
  radius p = XFin rad -> 0 <= rad ->
  spin p = XFin sp ->
  randomness p = XFin rnd -> 0 <= rnd ->
  (0 < branches p)%Z ->
  (Z.of_nat i < count p)%Z ->
  exists buf d' x y z,
    generate rng newColor p d = Some (buf, d') /\
    positions buf !! (3 * i)%nat = Some (XFin x) /\
    positions buf !! (3 * i + 1)%nat = Some (XFin y) /\
    positions buf !! (3 * i + 2)%nat = Some (XFin z) /\
    - (rad * (1 + rnd / 2)) <= x <= rad * (1 + rnd / 2) /\
    - (rad * rnd / 2) <= y <= rad * rnd / 2 /\
    - (rad * (1 + rnd / 2)) <= z <= rad * (1 + rnd / 2).
Proof.
  intros Hrng Hrad Hrad0 Hsp Hrnd Hrnd0 Hb Hi.
  destruct (generate_slots rng newColor p d i Hi) as (buf & d' & Hg & Hslot).
  destruct (Hrng (d + 4 * i)%nat) as (u & Hu & Hu01).
  destruct (Hrng (d + 4 * i + 1)%nat) as (ux & Hux & Hux01).
  destruct (Hrng (d + 4 * i + 2)%nat) as (uy & Huy & Huy01).
  destruct (Hrng (d + 4 * i + 3)%nat) as (uz & Huz & Huz01).
  destruct (position_at_exact rng p d i _ _ _ _ _ _ _ _ Hrad Hsp Hrnd
              (branchAngle_exact p i Hb) Hu Hux Huy Huz) as (Hx & Hy & Hz).
  destruct (Hslot 0%nat ltac:(lia)) as [H0 _]. rewrite Nat.add_0_r, Hx in H0.
  destruct (Hslot 1%nat ltac:(lia)) as [H1 _]. rewrite Hy in H1.
  destruct (Hslot 2%nat ltac:(lia)) as [H2 _]. rewrite Hz in H2.
  eexists buf, d', _, _, _. split; [exact Hg|].
  split; [exact H0|]. split; [exact H1|]. split; [exact H2|].
  by apply coordinates_bounded.
Qed.

(** The three stored channels of a particle as real numbers, for finite
    colours and a finite radius other than zero: the interpolation factor
    is the radius draw itself. *)
Lemma color_at_exact (rng : nat -> xreal) (newColor : string -> Color xreal)
    (p : Parameters xreal) (d i : nat) (rad u ri gi bi ro go bo : R) :
  radius p = XFin rad -> rad <> 0 ->
  rng (d + 4 * i)%nat = XFin u ->
  newColor (insideColor p) = mkColor (XFin ri) (XFin gi) (XFin bi) ->
  newColor (outsideColor p) = mkColor (XFin ro) (XFin go) (XFin bo) ->
  color_at rng newColor p d i 0 = XFin (ri + (ro - ri) * u) /\
  color_at rng newColor p d i 1 = XFin (gi + (go - gi) * u) /\
  color_at rng newColor p d i 2 = XFin (bi + (bo - bi) * u).
Proof.
  intros Hrad Hne Hu HcI HcO.
  unfold color_at, radius_at, lerp. rewrite Hrad, Hu, HcI, HcO.
  cbn [r g b]. xreal_ops. cbn [ndiv xreal_number]. rewrite xdiv_fin by done.
  xreal_ops. split_and!; f_equal; field; done.
Qed.

Lemma between_endpoints (a c u : R) :
  0 <= u < 1 -> Rmin a c <= a + (c - a) * u <= Rmax a c.
Proof.
  intros Hu. unfold Rmin, Rmax. destruct (Rle_dec a c); nra.
Qed.

(** X9: the colour of a particle never leaves the gradient. For finite
    colours, a finite radius other than zero and draws in [[0, 1)], the
    interpolation factor [radius_i / radius] is the radius draw [u], and
    each stored channel is [inside + (outside - inside) * u], a number
    between the inside and the outside value of that channel. *)
Theorem X9_color_between_endpoints (rng : nat -> xreal)
    (newColor : string -> Color xreal) (p : Parameters xreal) (d i : nat)
    (rad ri gi bi ro go bo : R) :
  unit_rng rng ->
  radius p = XFin rad -> rad <> 0 ->
  newColor (insideColor p) = mkColor (XFin ri) (XFin gi) (XFin bi) ->
  newColor (outsideColor p) = mkColor (XFin ro) (XFin go) (XFin bo) ->
  (Z.of_nat i < count p)%Z ->
  exists buf d' u,
    generate rng newColor p d = Some (buf, d') /\
    rng (d + 4 * i)%nat = XFin u /\
    colors buf !! (3 * i)%nat = Some (XFin (ri + (ro - ri) * u)) /\
    colors buf !! (3 * i + 1)%nat = Some (XFin (gi + (go - gi) * u)) /\
    colors buf !! (3 * i + 2)%nat = Some (XFin (bi + (bo - bi) * u)) /\
    Rmin ri ro <= ri + (ro - ri) * u <= Rmax ri ro /\
    Rmin gi go <= gi + (go - gi) * u <= Rmax gi go /\
    Rmin bi bo <= bi + (bo - bi) * u <= Rmax bi bo.
Proof.
  intros Hrng Hrad Hne HcI HcO Hi.
  destruct (generate_slots rng newColor p d i Hi) as (buf & d' & Hg & Hslot).
  destruct (Hrng (d + 4 * i)%nat) as (u & Hu & Hu01).
  destruct (color_at_exact rng newColor p d i _ _ _ _ _ _ _ _ Hrad Hne Hu HcI HcO)
    as (Hr & Hgr & Hbl).
  destruct (Hslot 0%nat ltac:(lia)) as [_ H0]. rewrite Nat.add_0_r, Hr in H0.
  destruct (Hslot 1%nat ltac:(lia)) as [_ H1]. rewrite Hgr in H1.
  destruct (Hslot 2%nat ltac:(lia)) as [_ H2]. rewrite Hbl in H2.
  exists buf, d', u. split_and!; try done; by apply between_endpoints.
Qed.

(** X10: inside the ranges of the panel nothing goes wrong. For
    parameters within the [min] and [max] of every control, finite
    colours and draws in [[0, 1)], a call with a scene returns normally,
    and every slot of both published arrays is a finite number; the
    coordinates satisfy [|x|, |z| <= 40] and [|y| <= 20]. *)
Theorem X10_panel_bounds_box (rng : nat -> xreal)
    (newColor : string -> Color xreal) (p : Parameters xreal)
    (w : World xreal) cs (ri gi bi ro go bo : R) :
  panel_bounds p ->
  unit_rng rng ->
  newColor (insideColor p) = mkColor (XFin ri) (XFin gi) (XFin bi) ->
  newColor (outsideColor p) = mkColor (XFin ro) (XFin go) (XFin bo) ->
  scene w = Some cs ->
  exists w' pts ps cls,
    generateGalaxy rng newColor p w = (Normal, w') /\
    points w' = Some pts /\
    g_position (o_geometry pts) = Some ps /\
    g_color (o_geometry pts) = Some cls /\
    length ps = Z.to_nat (count p * 3) /\
    length cls = Z.to_nat (count p * 3) /\
    forall i, (Z.of_nat i < count p)%Z ->
      exists x y z cr cg cb,
        ps !! (3 * i)%nat = Some (XFin x) /\
        ps !! (3 * i + 1)%nat = Some (XFin y) /\
        ps !! (3 * i + 2)%nat = Some (XFin z) /\
        cls !! (3 * i)%nat = Some (XFin cr) /\
        cls !! (3 * i + 1)%nat = Some (XFin cg) /\
        cls !! (3 * i + 2)%nat = Some (XFin cb) /\
        -40 <= x <= 40 /\ -20 <= y <= 20 /\ -40 <= z <= 40.
Proof.
  intros (Hcount & _ & (rad & Hrad & Hrad_b) & Hbr & (sp & Hsp & _)
          & (rnd & Hrnd & Hrnd_b) & _) Hrng HcI HcO Hs.
  destruct (generateGalaxy_runs rng newColor p w cs Hs) as (buf & Hg & Hlp & Hlc & Hrun);
    [lia|].
  eexists _, _, (positions buf), (colors buf).
  split; [exact Hrun|]. unfold publish, scene_add.
  cbn [points o_geometry g_position g_color].
  split_and!; try done; try lia.
  intros i Hi.
  destruct (generate_slots rng newColor p (draws w) i Hi)
    as (buf' & d' & Hg' & Hslot).
  rewrite Hg in Hg'. injection Hg' as <- _.
  destruct (Hrng (draws w + 4 * i)%nat) as (u & Hu & Hu01).
  destruct (Hrng (draws w + 4 * i + 1)%nat) as (ux & Hux & Hux01).
  destruct (Hrng (draws w + 4 * i + 2)%nat) as (uy & Huy & Huy01).
  destruct (Hrng (draws w + 4 * i + 3)%nat) as (uz & Huz & Huz01).
  destruct (position_at_exact rng p (draws w) i _ _ _ _ _ _ _ _ Hrad Hsp Hrnd
              (branchAngle_exact p i ltac:(lia)) Hu Hux Huy Huz)
    as (Hx & Hy & Hz).
  destruct (color_at_exact rng newColor p (draws w) i _ _ _ _ _ _ _ _
              Hrad ltac:(lra) Hu HcI HcO) as (Hr & Hgr & Hbl).
  destruct (Hslot 0%nat ltac:(lia)) as [P0 C0].
  rewrite Nat.add_0_r, Hx in P0. rewrite Nat.add_0_r, Hr in C0.
  destruct (Hslot 1%nat ltac:(lia)) as [P1 C1]. rewrite Hy in P1. rewrite Hgr in C1.
  destruct (Hslot 2%nat ltac:(lia)) as [P2 C2]. rewrite Hz in P2. rewrite Hbl in C2.
  eexists _, _, _, _, _, _.
  split; [exact P0|]. split; [exact P1|]. split; [exact P2|].
  split; [exact C0|]. split; [exact C1|]. split; [exact C2|].
  pose proof (coordinates_bounded rad rnd
                (IZR (Z.of_nat i `mod` branches p) / IZR (branches p) * (2 * PI)
                 + u * rad * sp) u ux uy uz
                ltac:(lra) ltac:(lra) Hu01 Hux01 Huy01 Huz01) as Hbox.
  cbn zeta in Hbox.
  assert (rad * (1 + rnd / 2) <= 40) by nra.
  assert (rad * rnd / 2 <= 20) by nra.
  lra.
Qed.

(** X11: zero arms. [i % 0] is [NaN], so the arm angle of every particle
    is [NaN]; nothing fails, and the [x] and [z] of every particle are
    stored as [NaN], whatever the other parameters and the draws are. *)
Theorem X11_zero_branches_NaN (rng : nat -> xreal)
    (newColor : string -> Color xreal) (p : Parameters xreal) (d i : nat) :
  branches p = 0%Z ->
  (Z.of_nat i < count p)%Z ->
  branchAngle p i = XNaN /\
  exists buf d',
    generate rng newColor p d = Some (buf, d') /\
    positions buf !! (3 * i)%nat = Some XNaN /\
    positions buf !! (3 * i + 2)%nat = Some XNaN.
Proof.
  intros Hb Hi.
  assert (branchAngle p i = XNaN) as Hba
    by (unfold branchAngle, js_rem; rewrite Hb; reflexivity).
  split; [exact Hba|].
  destruct (generate_slots rng newColor p d i Hi) as (buf & d' & Hg & Hslot).
  exists buf, d'. split; [exact Hg|].
  destruct (Hslot 0%nat ltac:(lia)) as [H0 _]. rewrite Nat.add_0_r in H0.
  destruct (Hslot 2%nat ltac:(lia)) as [H2 _].
  rewrite H0, H2. unfold position_at. rewrite Hba. done.
Qed.

(** X12: radius zero. Nothing fails; with finite spin and randomness, at
    least one arm and finite draws, every particle is stored at the
    origin, and every colour channel is [NaN] (the interpolation factor
    is [0 / 0]), whatever the two colours are. *)
Theorem X12_zero_radius (rng : nat -> xreal)
    (newColor : string -> Color xreal) (p : Parameters xreal) (d i : nat)
    (sp rnd : R) :
  (forall k, exists u, rng k = XFin u) ->
  radius p = XFin 0 ->
  spin p = XFin sp ->
  randomness p = XFin rnd ->
  (0 < branches p)%Z ->
  (Z.of_nat i < count p)%Z ->
  exists buf d',
    generate rng newColor p d = Some (buf, d') /\
    forall axis, (axis < 3)%nat ->
      positions buf !! (3 * i + axis)%nat = Some (XFin 0) /\
      colors buf !! (3 * i + axis)%nat = Some XNaN.
Proof.
  intros Hrng Hrad Hsp Hrnd Hb Hi.
  destruct (generate_slots rng newColor p d i Hi) as (buf & d' & Hg & Hslot).
  exists buf, d'. split; [exact Hg|].
  destruct (Hrng (d + 4 * i)%nat) as (u & Hu).
  destruct (Hrng (d + 4 * i + 1)%nat) as (ux & Hux).
  destruct (Hrng (d + 4 * i + 2)%nat) as (uy & Huy).
  destruct (Hrng (d + 4 * i + 3)%nat) as (uz & Huz).
  destruct (position_at_exact rng p d i _ _ _ _ _ _ _ _ Hrad Hsp Hrnd
              (branchAngle_exact p i Hb) Hu Hux Huy Huz) as (Hx & Hy & Hz).
  assert (forall axis, color_at rng newColor p d i axis = XNaN) as Hcol.
  { intros axis. unfold color_at, radius_at, lerp. rewrite Hrad, Hu.
    xreal_ops. cbn [ndiv xreal_number]. unfold xdiv.
    destruct (Req_dec_T 0 0) as [_|Hne]; [|lra].
    cbn [r g b].
    destruct (newColor (insideColor p)) as [[|?] [|?] [|?]],
             (newColor (outsideColor p)) as [[|?] [|?] [|?]];
      destruct axis as [|[|axis]]; reflexivity. }
  intros axis Ha. destruct (Hslot axis Ha) as [HP HC].
  rewrite HP, HC, Hcol. split; [|done].
  destruct axis as [|[|[|axis]]]; [rewrite Hx|rewrite Hy|rewrite Hz|lia];
    do 2 f_equal; ring.
Qed.

(** X13: no randomness. With [randomness = 0], a finite radius and spin,
    at least one arm and finite draws, particle [i] is stored exactly on
    its arm of the spiral: at the point
    [(rho cos(theta + spin rho), 0, rho sin(theta + spin rho))] for
    [rho = radius_i] and [theta] the angle of its arm, hence in the plane
    [y = 0] at distance [radius_i] from the axis. *)
Theorem X13_no_randomness_on_spiral (rng : nat -> xreal)
    (newColor : string -> Color xreal) (p : Parameters xreal) (d i : nat)
    (rad sp : R) :
  (forall k, exists u, rng k = XFin u) ->
  radius p = XFin rad ->
  spin p = XFin sp ->
  randomness p = XFin 0 ->
  (0 < branches p)%Z ->
  (Z.of_nat i < count p)%Z ->
  exists buf d' u x z,
    generate rng newColor p d = Some (buf, d') /\
    rng (d + 4 * i)%nat = XFin u /\
    positions buf !! (3 * i)%nat = Some (XFin x) /\
    positions buf !! (3 * i + 1)%nat = Some (XFin 0) /\
    positions buf !! (3 * i + 2)%nat = Some (XFin z) /\
    let rho := u * rad in
    let theta := IZR (Z.of_nat i `mod` branches p) / IZR (branches p) * (2 * PI) in
    x = rho * cos (theta + sp * rho) /\
    z = rho * sin (theta + sp * rho) /\
    x * x + z * z = rho * rho.
Proof.
  intros Hrng Hrad Hsp Hrnd Hb Hi.
  destruct (generate_slots rng newColor p d i Hi) as (buf & d' & Hg & Hslot).
  destruct (Hrng (d + 4 * i)%nat) as (u & Hu).
  destruct (Hrng (d + 4 * i + 1)%nat) as (ux & Hux).
  destruct (Hrng (d + 4 * i + 2)%nat) as (uy & Huy).
  destruct (Hrng (d + 4 * i + 3)%nat) as (uz & Huz).
  destruct (position_at_exact rng p d i _ _ _ _ _ _ _ _ Hrad Hsp Hrnd
              (branchAngle_exact p i Hb) Hu Hux Huy Huz) as (Hx & Hy & Hz).
  destruct (Hslot 0%nat ltac:(lia)) as [H0 _]. rewrite Nat.add_0_r, Hx in H0.
  destruct (Hslot 1%nat ltac:(lia)) as [H1 _]. rewrite Hy in H1.
  destruct (Hslot 2%nat ltac:(lia)) as [H2 _]. rewrite Hz in H2.
  set (theta := IZR (Z.of_nat i `mod` branches p) / IZR (branches p) * (2 * PI)) in *.
  exists buf, d', u, (u * rad * cos (theta + sp * (u * rad))),
    (u * rad * sin (theta + sp * (u * rad))).
  split; [exact Hg|]. split; [exact Hu|].
  replace (theta + u * rad * sp) with (theta + sp * (u * rad)) in H0, H2 by ring.
  cbn zeta. split_and!.
  - rewrite H0. do 2 f_equal. ring.
  - rewrite H1. do 2 f_equal. ring.
  - rewrite H2. do 2 f_equal. ring.
  - reflexivity.
  - reflexivity.
  - pose proof (sin2_cos2 (theta + sp * (u * rad))) as Hsc.
    unfold Rsqr in Hsc.
    replace (u * rad * cos (theta + sp * (u * rad))
             * (u * rad * cos (theta + sp * (u * rad)))
             + u * rad * sin (theta + sp * (u * rad))
               * (u * rad * sin (theta + sp * (u * rad))))
      with (u * rad * (u * rad)
            * (sin (theta + sp * (u * rad)) * sin (theta + sp * (u * rad))
               + cos (theta + sp * (u * rad)) * cos (theta + sp * (u * rad))))
      by ring.
    rewrite Hsc. ring.
Qed.

(** X14: the arms are distinct directions. For a positive number of arms
    every arm angle is a finite number in [[0, 2 PI)], and two particles
    have the same arm angle exactly when their indices are congruent
    modulo [branches]. *)
Theorem X14_arms_distinct (p : Parameters xreal) (i j : nat) :
  (0 < branches p)%Z ->
  (exists theta, branchAngle p i = XFin theta /\ 0 <= theta < 2 * PI) /\
  (branchAngle p i = branchAngle p j <->
   (Z.of_nat i `mod` branches p = Z.of_nat j `mod` branches p)%Z).
Proof.
  intros Hb. rewrite !branchAngle_exact by done.
  assert (0 < IZR (branches p)) as Hbr by (apply IZR_lt; lia).
  pose proof PI_RGT_0 as Hpi.
  split.
  - eexists. split; [reflexivity|].
    pose proof (Z.mod_pos_bound (Z.of_nat i) (branches p) Hb) as [Hm0 Hm1].
    apply IZR_le in Hm0. apply IZR_lt in Hm1.
    set (m := IZR (Z.of_nat i `mod` branches p)) in *.
    assert (0 < / IZR (branches p)) as Hinv by (apply Rinv_0_lt_compat; lra).
    assert (IZR (branches p) * / IZR (branches p) = 1) as Hone
      by (apply Rinv_r; lra).
    assert (0 <= m / IZR (branches p) < 1) as [Hq0 Hq1]
      by (unfold Rdiv; nra).
    nra.
  - split.
    + intros [= Heq]. apply eq_IZR.
      apply Rmult_eq_reg_r in Heq; [|lra].
      unfold Rdiv in Heq. apply Rmult_eq_reg_r in Heq; [done|].
      apply Rinv_neq_0_compat. lra.
    + by intros ->.
Qed.

(** Frames while a renderable is active: the variables stay as they are
    and the rotation grows by 0.001 a frame. *)
Lemma frames_active (n : nat) (w : World xreal) (a : R) pts :
  points w = Some pts ->
  Nat.iter n animate (mkStage w (XFin a)) = mkStage w (XFin (a + INR n / 1000)).
Proof.
  intros Hp. induction n as [|n IH].
  - unfold Nat.iter. cbn [nat_rect]. do 2 f_equal. change (INR 0) with 0. lra.
  - rewrite Nat.iter_succ, IH. unfold animate. cbn [world rotation_y].
    rewrite Hp. xreal_ops. do 2 f_equal. rewrite S_INR. lra.
Qed.

(** X15: the rotation restarts with every regeneration. After a call that
    completes, and [n] frames of [animate], the rotation of the active
    renderable is [n * 0.001] whatever it was before the call, and the
    frames have left the module-level variables as the call left them. *)
Theorem X15_rotation_restarts (rng : nat -> xreal)
    (newColor : string -> Color xreal) (p : Parameters xreal) (s : Stage)
    cs (n : nat) :
  scene (world s) = Some cs ->
  (0 <= count p)%Z ->
  let s' := Nat.iter n animate (stage_generateGalaxy rng newColor p s) in
  rotation_y s' = XFin (INR n / 1000) /\
  world s' = (generateGalaxy rng newColor p (world s)).2.
Proof.
  intros Hs Hc s'. subst s'. unfold stage_generateGalaxy.
  destruct (generateGalaxy_swap rng newColor p (world s) cs Hs Hc)
    as (buf & _ & _ & Hg).
  cbn zeta in Hg. rewrite Hg, Hs. cbn [snd of_int xreal_number].
  erewrite frames_active by reflexivity.
  cbn [rotation_y world]. split; [|done]. f_equal. lra.
Qed.

End ExactRanges.

(** ** Instances of the further properties *)

Lemma empty_galaxy_mounted :
  onMounted (constant_rng (1 / 2)) paletteColor true no_particles initial
  = (Normal, empty_galaxy).
Proof. reflexivity. Qed.

Lemma empty_galaxy_wf : wf empty_galaxy.
Proof.
  unfold wf, empty_galaxy. cbn. split_and!.
  - by intros ? [= <-].
  - intros pts [= <-]. cbn. split_and!; try done; by intros ?%elem_of_nil.
  - by intros id ?%elem_of_nil.
  - intros ge [= <-]. cbn. lia.
  - intros ma [= <-]. cbn. lia.
Qed.

Lemma half_unit_rng : unit_rng (constant_rng (1 / 2)).
Proof. intros k. exists (1 / 2)%R. split; [reflexivity|lra]. Qed.

Lemma half_finite_rng : forall k, exists u, constant_rng (1 / 2) k = XFin u.
Proof. intros k. by exists (1 / 2)%R. Qed.

Lemma parameters_panel_bounds : panel_bounds parameters.
Proof.
  unfold panel_bounds, xbetween, parameters. cbn. split_and!; try lia.
  - exists (1 / 1000)%R. split; [done|lra].
  - exists 10%R. split; [done|lra].
  - exists 1%R. split; [done|lra].
  - exists (3 / 10)%R. split; [done|lra].
  - exists 3%R. split; [done|lra].
Qed.


Lemma X2_recovery_after_throw_witness :
  wf empty_galaxy /\
  (count negative_count < 0)%Z /\
  (0 <= count parameters)%Z /\
  exists w2 r,
    generateGalaxy (constant_rng (1 / 2)) paletteColor parameters
      (generateGalaxy (constant_rng (1 / 2)) paletteColor negative_count
         empty_galaxy).2 = (Normal, w2) /\
    wf w2 /\
    points w2 = Some r /\
    scene w2 = Some [r] /\
    disposed w2 = [0; 1; 3; 1]%nat.
Proof.
  split; [apply empty_galaxy_wf|]. split; [reflexivity|].
  split; [vm_compute; discriminate|].
  apply (X2_recovery_after_throw (constant_rng (1 / 2)) paletteColor
           negative_count parameters empty_galaxy _ _
           empty_galaxy_wf eq_refl eq_refl eq_refl).
  vm_compute; discriminate.
Defined.



Lemma X5_no_scene_nothing_ever_witness :
  scene unmounted = None /\
  onMounted (constant_rng (1 / 2)) paletteColor false parameters unmounted
    = (Normal, unmounted) /\
  regenerations (constant_rng (1 / 2)) paletteColor
    [parameters; negative_count; no_particles] unmounted = unmounted.
Proof.
  split; [reflexivity|].
  apply (X5_no_scene_nothing_ever (constant_rng (1 / 2)) paletteColor
           [parameters; negative_count; no_particles] parameters unmounted).
  reflexivity.
Defined.

Lemma X6_arrays_independent_of_size_witness :
  same_shape parameters larger_points /\
  generate (constant_rng (1 / 2)) paletteColor parameters 0
    = generate (constant_rng (1 / 2)) paletteColor larger_points 0 /\
  (generateGalaxy (constant_rng (1 / 2)) paletteColor parameters mounted).1
    = (generateGalaxy (constant_rng (1 / 2)) paletteColor larger_points mounted).1 /\
  geometry (generateGalaxy (constant_rng (1 / 2)) paletteColor parameters mounted).2
    = geometry (generateGalaxy (constant_rng (1 / 2)) paletteColor larger_points
                  mounted).2.
Proof.
  assert (same_shape parameters larger_points) as Hsh
    by (unfold same_shape; repeat split; reflexivity).
  split; [exact Hsh|].
  apply (X6_arrays_independent_of_size (constant_rng (1 / 2)) paletteColor
           parameters larger_points mounted 0 Hsh).
Defined.

Lemma X7_branchAngle_periodic_witness :
  (0 < branches parameters)%Z /\
  branchAngle parameters (1 + Z.to_nat (branches parameters))
    = branchAngle parameters 1.
Proof.
  split; [reflexivity|].
  apply (X7_branchAngle_periodic parameters 1). reflexivity.
Defined.

Lemma X8_position_bounds_witness :
  unit_rng (constant_rng (1 / 2)) /\
  (0 < branches parameters)%Z /\
  (Z.of_nat 7 < count parameters)%Z /\
  exists buf d' x y z,
    generate (constant_rng (1 / 2)) paletteColor parameters 0 = Some (buf, d') /\
    positions buf !! (3 * 7)%nat = Some (XFin x) /\
    positions buf !! (3 * 7 + 1)%nat = Some (XFin y) /\
    positions buf !! (3 * 7 + 2)%nat = Some (XFin z) /\
    (- (10 * (1 + 3 / 10 / 2)) <= x <= 10 * (1 + 3 / 10 / 2))%R /\
    (- (10 * (3 / 10) / 2) <= y <= 10 * (3 / 10) / 2)%R /\
    (- (10 * (1 + 3 / 10 / 2)) <= z <= 10 * (1 + 3 / 10 / 2))%R.
Proof.
  split; [apply half_unit_rng|]. split; [reflexivity|]. split; [reflexivity|].
  apply (X8_position_bounds (constant_rng (1 / 2)) paletteColor parameters 0 7
           10 1 (3 / 10) half_unit_rng eq_refl).
  - lra.
  - reflexivity.
  - reflexivity.
  - lra.
  - reflexivity.
  - reflexivity.
Defined.

Lemma X9_color_between_endpoints_witness :
  unit_rng (constant_rng (1 / 2)) /\
  (Z.of_nat 7 < count parameters)%Z /\
  exists buf d' u,
    generate (constant_rng (1 / 2)) paletteColor parameters 0 = Some (buf, d') /\
    constant_rng (1 / 2) (0 + 4 * 7)%nat = XFin u /\
    colors buf !! (3 * 7)%nat
      = Some (XFin (255 / 255 + (5 / 255 - 255 / 255) * u)) /\
    (Rmin (255 / 255) (5 / 255) <= 255 / 255 + (5 / 255 - 255 / 255) * u
     <= Rmax (255 / 255) (5 / 255))%R.
Proof.
  split; [apply half_unit_rng|]. split; [reflexivity|].
  destruct (X9_color_between_endpoints (constant_rng (1 / 2)) paletteColor
              parameters 0 7 10 (255 / 255) (83 / 255) (52 / 255)
              (5 / 255) (51 / 255) (92 / 255) half_unit_rng eq_refl)
    as (buf & d' & u & Hg & Hu & Hr & _ & _ & Hb & _).
  - lra.
  - reflexivity.
  - reflexivity.
  - reflexivity.
  - exists buf, d', u. split; [exact Hg|]. split; [exact Hu|].
    split; [exact Hr|exact Hb].
Defined.

Lemma X10_panel_bounds_box_witness :
  panel_bounds parameters /\
  unit_rng (constant_rng (1 / 2)) /\
  scene (@mounted xreal) = Some [] /\
  exists w' pts ps cls,
    generateGalaxy (constant_rng (1 / 2)) paletteColor parameters mounted
      = (Normal, w') /\
    points w' = Some pts /\
    g_position (o_geometry pts) = Some ps /\
    g_color (o_geometry pts) = Some cls /\
    length ps = Z.to_nat (count parameters * 3) /\
    length cls = Z.to_nat (count parameters * 3) /\
    forall i, (Z.of_nat i < count parameters)%Z ->
      exists x y z cr cg cb,
        ps !! (3 * i)%nat = Some (XFin x) /\
        ps !! (3 * i + 1)%nat = Some (XFin y) /\
        ps !! (3 * i + 2)%nat = Some (XFin z) /\
        cls !! (3 * i)%nat = Some (XFin cr) /\
        cls !! (3 * i + 1)%nat = Some (XFin cg) /\
        cls !! (3 * i + 2)%nat = Some (XFin cb) /\
        (-40 <= x <= 40)%R /\ (-20 <= y <= 20)%R /\ (-40 <= z <= 40)%R.
Proof.
  split; [apply parameters_panel_bounds|]. split; [apply half_unit_rng|].
  split; [reflexivity|].
  apply (X10_panel_bounds_box (constant_rng (1 / 2)) paletteColor parameters
           mounted [] (255 / 255) (83 / 255) (52 / 255)
           (5 / 255) (51 / 255) (92 / 255)
           parameters_panel_bounds half_unit_rng eq_refl eq_refl eq_refl).
Defined.

Lemma X11_zero_branches_NaN_witness :
  branches no_branches = 0%Z /\
  (Z.of_nat 7 < count no_branches)%Z /\
  branchAngle no_branches 7 = XNaN /\
  exists buf d',
    generate (constant_rng (1 / 2)) paletteColor no_branches 0 = Some (buf, d') /\
    positions buf !! (3 * 7)%nat = Some XNaN /\
    positions buf !! (3 * 7 + 2)%nat = Some XNaN.
Proof.
  split; [reflexivity|]. split; [reflexivity|].
  apply (X11_zero_branches_NaN (constant_rng (1 / 2)) paletteColor
           no_branches 0 7 eq_refl eq_refl).
Defined.

Lemma X12_zero_radius_witness :
  radius no_radius = XFin 0 /\
  (Z.of_nat 7 < count no_radius)%Z /\
  exists buf d',
    generate (constant_rng (1 / 2)) paletteColor no_radius 0 = Some (buf, d') /\
    forall axis, (axis < 3)%nat ->
      positions buf !! (3 * 7 + axis)%nat = Some (XFin 0) /\
      colors buf !! (3 * 7 + axis)%nat = Some XNaN.
Proof.
  split; [reflexivity|]. split; [reflexivity|].
  apply (X12_zero_radius (constant_rng (1 / 2)) paletteColor no_radius 0 7
           1 (3 / 10) half_finite_rng eq_refl eq_refl eq_refl eq_refl eq_refl).
Defined.

Lemma X13_no_randomness_on_spiral_witness :
  randomness no_randomness = XFin 0 /\
  (Z.of_nat 7 < count no_randomness)%Z /\
  exists buf d' u x z,
    generate (constant_rng (1 / 2)) paletteColor no_randomness 0
      = Some (buf, d') /\
    constant_rng (1 / 2) (0 + 4 * 7)%nat = XFin u /\
    positions buf !! (3 * 7)%nat = Some (XFin x) /\
    positions buf !! (3 * 7 + 1)%nat = Some (XFin 0) /\
    positions buf !! (3 * 7 + 2)%nat = Some (XFin z) /\
    (x * x + z * z = u * 10 * (u * 10))%R.
Proof.
  split; [reflexivity|]. split; [reflexivity|].
  destruct (X13_no_randomness_on_spiral (constant_rng (1 / 2)) paletteColor
              no_randomness 0 7 10 1 half_finite_rng
              eq_refl eq_refl eq_refl eq_refl eq_refl)
    as (buf & d' & u & x & z & Hg & Hu & Hx & Hy & Hz & _ & _ & Hc).
  exists buf, d', u, x, z.
  split; [exact Hg|]. split; [exact Hu|]. split; [exact Hx|].
  split; [exact Hy|]. split; [exact Hz|exact Hc].
Defined.

Lemma X14_arms_distinct_witness :
  (0 < branches parameters)%Z /\
  (exists theta, branchAngle parameters 1 = XFin theta
                 /\ (0 <= theta < 2 * PI)%R) /\
  (branchAngle parameters 1 = branchAngle parameters 4 <->
   (Z.of_nat 1 `mod` branches parameters
    = Z.of_nat 4 `mod` branches parameters)%Z).
Proof.
  split; [reflexivity|].
  apply (X14_arms_distinct parameters 1 4). reflexivity.
Defined.

Lemma X15_rotation_restarts_witness :
  scene (world (mkStage mounted (XFin 7))) = Some [] /\
  (0 <= count parameters)%Z /\
  let s' := Nat.iter 3 animate
              (stage_generateGalaxy (constant_rng (1 / 2)) paletteColor
                 parameters (mkStage mounted (XFin 7))) in
  rotation_y s' = XFin (INR 3 / 1000) /\
  world s' = (generateGalaxy (constant_rng (1 / 2)) paletteColor parameters
                (world (mkStage mounted (XFin 7)))).2.
Proof.
  split; [reflexivity|]. split; [vm_compute; discriminate|].
  apply (X15_rotation_restarts (constant_rng (1 / 2)) paletteColor parameters
           (mkStage mounted (XFin 7)) [] 3).
  - reflexivity.
  - vm_compute; discriminate.
Defined.
